(** * jdatadst-tj.c: the in-memory compression data destination

    A shallow embedding of the destination manager of [jdatadst-tj.c]
    ([init_mem_destination], [empty_mem_output_buffer],
    [term_mem_destination], [jpeg_mem_dest_tj]) over a block-structured
    memory, and the properties of its buffer growth and ownership
    protocol.

    Conventions of the embedding:
    - memory is a finite map from block identifiers to arrays of cells; a
      pointer is [NULL] or a block with a byte offset; [malloc] either
      fails (the environment decides) or returns a block that is not
      live; an access outside a live block, [free] of anything but the
      start of a live block, and a dereference of [NULL] are undefined
      behaviour, outcome [Undefined];
    - [ERREXIT] and [ERREXIT1] do not return to the caller: outcome
      [ErrorExit], which carries the message code, the message
      parameter, and the state at the moment of the exit;
    - [size_t] and [unsigned long] are the machine word of the target
      (ILP32 or LP64): unsigned integers of [w] bits, as [Z] with the
      wrap-around written out. *)

From Stdlib Require Import ZArith List Lia.
From Stdlib.Strings Require Import Byte.
From stdpp Require Import base gmap list.

Local Open Scope Z_scope.

(** ** Memory *)

Abbreviation block := positive (only parsing).
Abbreviation loc := positive (only parsing).

Inductive pointer : Type :=
| NULL
| Ptr (b : block) (ofs : Z).

Definition is_null (p : pointer) : bool :=
  match p with NULL => true | Ptr _ _ => false end.

(** Null test for a pointer to a variable or to an object. *)
Definition is_null_loc {A} (l : option A) : bool :=
  match l with None => true | Some _ => false end.

(** [p + n] on a byte pointer. *)
Definition ptr_add (p : pointer) (n : Z) : pointer :=
  match p with NULL => NULL | Ptr b o => Ptr b (o + n) end.

(** A cell of a byte array: freshly allocated storage is indeterminate. *)
Inductive memval : Type :=
| Vundef
| Vbyte (x : byte).

(** The entry points installed in the method table of a destination. *)
Inductive fnptr : Type :=
| FN_init_mem_destination
| FN_empty_mem_output_buffer
| FN_term_mem_destination
| FN_other (id : positive).

(** ** The destination object *)

Record jpeg_destination_mgr : Type := mk_pub {
  next_output_byte : pointer;
  free_in_buffer : Z;
  init_destination : fnptr;
  empty_output_buffer : fnptr;
  term_destination : fnptr
}.

Record my_mem_destination_mgr : Type := mk_dest {
  pub : jpeg_destination_mgr;
  outbuffer : option loc;
  outsize : option loc;
  newbuffer : pointer;
  buffer : pointer;
  bufsize : Z;
  alloc : bool
}.

Definition set_next_output_byte (p : pointer) (d : my_mem_destination_mgr) :=
  mk_dest (mk_pub p (free_in_buffer (pub d)) (init_destination (pub d))
             (empty_output_buffer (pub d)) (term_destination (pub d)))
    (outbuffer d) (outsize d) (newbuffer d) (buffer d) (bufsize d) (alloc d).

Definition set_free_in_buffer (n : Z) (d : my_mem_destination_mgr) :=
  mk_dest (mk_pub (next_output_byte (pub d)) n (init_destination (pub d))
             (empty_output_buffer (pub d)) (term_destination (pub d)))
    (outbuffer d) (outsize d) (newbuffer d) (buffer d) (bufsize d) (alloc d).

Definition set_init_destination (f : fnptr) (d : my_mem_destination_mgr) :=
  mk_dest (mk_pub (next_output_byte (pub d)) (free_in_buffer (pub d)) f
             (empty_output_buffer (pub d)) (term_destination (pub d)))
    (outbuffer d) (outsize d) (newbuffer d) (buffer d) (bufsize d) (alloc d).

Definition set_empty_output_buffer (f : fnptr) (d : my_mem_destination_mgr) :=
  mk_dest (mk_pub (next_output_byte (pub d)) (free_in_buffer (pub d))
             (init_destination (pub d)) f (term_destination (pub d)))
    (outbuffer d) (outsize d) (newbuffer d) (buffer d) (bufsize d) (alloc d).

Definition set_term_destination (f : fnptr) (d : my_mem_destination_mgr) :=
  mk_dest (mk_pub (next_output_byte (pub d)) (free_in_buffer (pub d))
             (init_destination (pub d)) (empty_output_buffer (pub d)) f)
    (outbuffer d) (outsize d) (newbuffer d) (buffer d) (bufsize d) (alloc d).

Definition set_outbuffer (l : option loc) (d : my_mem_destination_mgr) :=
  mk_dest (pub d) l (outsize d) (newbuffer d) (buffer d) (bufsize d) (alloc d).

Definition set_outsize (l : option loc) (d : my_mem_destination_mgr) :=
  mk_dest (pub d) (outbuffer d) l (newbuffer d) (buffer d) (bufsize d) (alloc d).

Definition set_newbuffer (p : pointer) (d : my_mem_destination_mgr) :=
  mk_dest (pub d) (outbuffer d) (outsize d) p (buffer d) (bufsize d) (alloc d).

Definition set_buffer (p : pointer) (d : my_mem_destination_mgr) :=
  mk_dest (pub d) (outbuffer d) (outsize d) (newbuffer d) p (bufsize d) (alloc d).

Definition set_bufsize (n : Z) (d : my_mem_destination_mgr) :=
  mk_dest (pub d) (outbuffer d) (outsize d) (newbuffer d) (buffer d) n (alloc d).

Definition set_alloc (a : bool) (d : my_mem_destination_mgr) :=
  mk_dest (pub d) (outbuffer d) (outsize d) (newbuffer d) (buffer d) (bufsize d) a.

(** ** Program state

    [heap] holds the live byte arrays; [ptr_vars] and [ulong_vars] are the
    caller's variables of type [unsigned char *] and [unsigned long] that
    [outbuffer] and [outsize] point to; [cinfo_dest] is [cinfo->dest],
    [None] for a null pointer. *)

Record state : Type := mk_state {
  heap : gmap positive (list memval);
  ptr_vars : gmap positive pointer;
  ulong_vars : gmap positive Z;
  cinfo_dest : option my_mem_destination_mgr
}.

Definition set_heap (h : gmap positive (list memval)) (s : state) : state :=
  mk_state h (ptr_vars s) (ulong_vars s) (cinfo_dest s).

Definition set_ptr_vars (m : gmap positive pointer) (s : state) : state :=
  mk_state (heap s) m (ulong_vars s) (cinfo_dest s).

Definition set_ulong_vars (m : gmap positive Z) (s : state) : state :=
  mk_state (heap s) (ptr_vars s) m (cinfo_dest s).

Definition set_cinfo_dest (d : option my_mem_destination_mgr) (s : state) : state :=
  mk_state (heap s) (ptr_vars s) (ulong_vars s) d.

(** ** Outcomes and the monad of the embedding *)

Inductive msg_code : Type :=
| JERR_BUFFER_SIZE
| JERR_OUT_OF_MEMORY.

Inductive outcome (A : Type) : Type :=
| Done (a : A) (s : state)
| ErrorExit (code : msg_code) (parm : option Z) (s : state)
| Undefined.

Arguments Done {A} a s.
Arguments ErrorExit {A} code parm s.
Arguments Undefined {A}.

Definition M (A : Type) : Type := state -> outcome A.

Definition ret {A} (a : A) : M A := fun s => Done a s.

Definition bind {A B} (m : M A) (k : A -> M B) : M B :=
  fun s =>
    match m s with
    | Done a s' => k a s'
    | ErrorExit c p s' => ErrorExit c p s'
    | Undefined => Undefined
    end.

Declare Scope c_scope.
Delimit Scope c_scope with C.
Notation "x <- m ;; k" := (bind m (fun x => k))
  (at level 100, m at next level, right associativity) : c_scope.
Notation "m ;; k" := (bind m (fun _ => k))
  (at level 100, right associativity) : c_scope.
Local Open Scope c_scope.

Definition ERREXIT {A} (code : msg_code) : M A :=
  fun s => ErrorExit code None s.

Definition ERREXIT1 {A} (code : msg_code) (p1 : Z) : M A :=
  fun s => ErrorExit code (Some p1) s.

Definition undefined {A} : M A := fun _ => Undefined.

(** *** Allocator *)

(** [malloc(n)]: [ok] is the allocator's decision.  The new block is not
    live in the heap at the call, and its cells are indeterminate. *)
Definition malloc (ok : bool) (n : Z) : M pointer :=
  fun s =>
    if ok then
      let b := fresh (dom (heap s)) in
      Done (Ptr b 0) (set_heap (<[b := replicate (Z.to_nat n) Vundef]> (heap s)) s)
    else Done NULL s.

(** [free(p)]: [p] is null or the start of a live block. *)
Definition free (p : pointer) : M unit :=
  fun s =>
    match p with
    | NULL => Done tt s
    | Ptr b o =>
        match heap s !! b with
        | Some _ => if o =? 0 then Done tt (set_heap (delete b (heap s)) s) else Undefined
        | None => Undefined
        end
    end.

(** *** Byte arrays *)

Definition load_bytes (h : gmap positive (list memval)) (p : pointer) (n : Z)
  : option (list memval) :=
  match p with
  | NULL => None
  | Ptr b o =>
      match h !! b with
      | Some cells =>
          if (0 <=? o) && (0 <=? n) && (o + n <=? Z.of_nat (length cells))
          then Some (take (Z.to_nat n) (drop (Z.to_nat o) cells))
          else None
      | None => None
      end
  end.

Definition store_bytes (h : gmap positive (list memval)) (p : pointer)
    (vs : list memval) : option (gmap positive (list memval)) :=
  match p with
  | NULL => None
  | Ptr b o =>
      match h !! b with
      | Some cells =>
          if (0 <=? o) && (o + Z.of_nat (length vs) <=? Z.of_nat (length cells))
          then Some (<[b := take (Z.to_nat o) cells ++ vs
                              ++ drop (Z.to_nat o + length vs) cells]> h)
          else None
      | None => None
      end
  end.

(** [MEMCOPY(dst, src, n)].  The only call copies into a block that
    [malloc] has just returned, so source and target never overlap. *)
Definition MEMCOPY (dst src : pointer) (n : Z) : M unit :=
  fun s =>
    match load_bytes (heap s) src n with
    | Some vs =>
        match store_bytes (heap s) dst vs with
        | Some h' => Done tt (set_heap h' s)
        | None => Undefined
        end
    | None => Undefined
    end.

(** *** The caller's variables *)

Definition load_ptr_var (l : option loc) : M pointer :=
  fun s =>
    match l with
    | Some x => match ptr_vars s !! x with Some p => Done p s | None => Undefined end
    | None => Undefined
    end.

Definition store_ptr_var (l : option loc) (p : pointer) : M unit :=
  fun s =>
    match l with
    | Some x =>
        match ptr_vars s !! x with
        | Some _ => Done tt (set_ptr_vars (<[x := p]> (ptr_vars s)) s)
        | None => Undefined
        end
    | None => Undefined
    end.

Definition load_ulong_var (l : option loc) : M Z :=
  fun s =>
    match l with
    | Some x => match ulong_vars s !! x with Some n => Done n s | None => Undefined end
    | None => Undefined
    end.

Definition store_ulong_var (l : option loc) (n : Z) : M unit :=
  fun s =>
    match l with
    | Some x =>
        match ulong_vars s !! x with
        | Some _ => Done tt (set_ulong_vars (<[x := n]> (ulong_vars s)) s)
        | None => Undefined
        end
    | None => Undefined
    end.

(** *** [cinfo->dest] *)

(** [dest = (my_mem_dest_ptr) cinfo->dest], then a read through [dest]. *)
Definition get_dest : M my_mem_destination_mgr :=
  fun s =>
    match cinfo_dest s with
    | Some d => Done d s
    | None => Undefined
    end.

(** [cinfo->dest], as a pointer that may be null. *)
Definition load_cinfo_dest : M (option my_mem_destination_mgr) :=
  fun s => Done (cinfo_dest s) s.

(** [cinfo->dest] is assigned the object that the pool's [alloc_small]
    returns: [obj] is the content of that storage. *)
Definition alloc_small_dest (obj : my_mem_destination_mgr) : M unit :=
  fun s => Done tt (set_cinfo_dest (Some obj) s).

(** An assignment to a field of [*dest]. *)
Definition assign (f : my_mem_destination_mgr -> my_mem_destination_mgr) : M unit :=
  fun s =>
    match cinfo_dest s with
    | Some d => Done tt (set_cinfo_dest (Some (f d)) s)
    | None => Undefined
    end.

(** ** The source file *)

Definition OUTPUT_BUF_SIZE : Z := 4096.

Section Destination.

(** Width in bits of [size_t] and of [unsigned long]. *)
Variable w : Z.

Definition to_size_t (z : Z) : Z := z mod 2 ^ w.
Definition to_ulong (z : Z) : Z := z mod 2 ^ w.

Definition init_mem_destination : M unit := ret tt.

Definition empty_mem_output_buffer (malloc_ok : bool) : M bool :=
  dest <- get_dest ;;
  (if negb (alloc dest) then ERREXIT JERR_BUFFER_SIZE else ret tt) ;;
  let nextsize := to_size_t (bufsize dest * 2) in
  nextbuffer <- malloc malloc_ok nextsize ;;
  (if is_null nextbuffer then ERREXIT1 JERR_OUT_OF_MEMORY 10 else ret tt) ;;
  MEMCOPY nextbuffer (buffer dest) (bufsize dest) ;;
  (if negb (is_null (newbuffer dest)) then free (newbuffer dest) else ret tt) ;;
  assign (set_newbuffer nextbuffer) ;;
  assign (fun d => set_next_output_byte (ptr_add nextbuffer (bufsize d)) d) ;;
  assign (fun d => set_free_in_buffer (bufsize d) d) ;;
  assign (set_buffer nextbuffer) ;;
  assign (set_bufsize nextsize) ;;
  ret true.

Definition term_mem_destination : M unit :=
  dest <- get_dest ;;
  (if alloc dest then store_ptr_var (outbuffer dest) (buffer dest) else ret tt) ;;
  store_ulong_var (outsize dest)
    (to_ulong (to_size_t (bufsize dest - free_in_buffer (pub dest)))).

(** [pool_obj] is the storage that [alloc_small] returns for the
    destination object: its fields are indeterminate until assigned. *)
Definition jpeg_mem_dest_tj (pool_obj : my_mem_destination_mgr) (malloc_ok : bool)
    (outbuffer outsize : option loc) (alloc : bool) : M unit :=
  (if is_null_loc outbuffer || is_null_loc outsize
   then ERREXIT JERR_BUFFER_SIZE else ret tt) ;;
  cur <- load_cinfo_dest ;;
  (if is_null_loc cur
   then alloc_small_dest pool_obj ;; assign (set_newbuffer NULL)
   else ret tt) ;;
  assign (set_init_destination FN_init_mem_destination) ;;
  assign (set_empty_output_buffer FN_empty_mem_output_buffer) ;;
  assign (set_term_destination FN_term_mem_destination) ;;
  assign (set_outbuffer outbuffer) ;;
  assign (set_outsize outsize) ;;
  assign (set_alloc alloc) ;;
  p <- load_ptr_var outbuffer ;;
  no_buffer <- (if is_null p then ret true
                else n <- load_ulong_var outsize ;; ret (n =? 0)) ;;
  (if no_buffer : bool then
     if alloc then
       q <- malloc malloc_ok OUTPUT_BUF_SIZE ;;
       store_ptr_var outbuffer q ;;
       assign (set_newbuffer q) ;;
       dest <- get_dest ;;
       (if is_null (newbuffer dest) then ERREXIT1 JERR_OUT_OF_MEMORY 10 else ret tt) ;;
       store_ulong_var outsize (to_ulong OUTPUT_BUF_SIZE)
     else ERREXIT JERR_BUFFER_SIZE
   else ret tt) ;;
  p <- load_ptr_var outbuffer ;;
  assign (set_buffer p) ;;
  assign (set_next_output_byte p) ;;
  n <- load_ulong_var outsize ;;
  assign (set_bufsize (to_size_t n)) ;;
  assign (fun d => set_free_in_buffer (bufsize d) d).

End Destination.

(** ** The producer and a compression session *)

(** Modelled from the spec: the producer of bytes, which is not part of
    this file.  It writes one byte into the window that the sink exposes
    (the spec's [write_pointer]), advances [next_output_byte] and
    decrements [free_in_buffer] (the spec's [remaining_room]). *)
Definition producer_write (w : Z) (v : byte) : M unit :=
  dest <- get_dest ;;
  (fun s =>
     match store_bytes (heap s) (next_output_byte (pub dest)) [Vbyte v] with
     | Some h' => Done tt (set_heap h' s)
     | None => Undefined
     end) ;;
  assign (fun d => set_next_output_byte (ptr_add (next_output_byte (pub d)) 1) d) ;;
  assign (fun d => set_free_in_buffer (to_size_t w (free_in_buffer (pub d) - 1)) d).

(** Modelled from the spec: the producer's call of [requestMoreRoom], a
    call of [empty_output_buffer] through the method table of the
    destination.  Only the entry of this file is known. *)
Definition call_empty_output_buffer (w : Z) (malloc_ok : bool) : M bool :=
  dest <- get_dest ;;
  match empty_output_buffer (pub dest) with
  | FN_empty_mem_output_buffer => empty_mem_output_buffer w malloc_ok
  | _ => undefined
  end.

(** What happens to a sink between [jpeg_mem_dest_tj] and
    [term_mem_destination]: the producer writes a byte, or it asks for
    more room. *)
Inductive action : Type :=
| WriteByte (v : byte)
| MoreRoom (malloc_ok : bool).

Definition perform (w : Z) (a : action) : M unit :=
  match a with
  | WriteByte v => producer_write w v
  | MoreRoom ok => _ <- call_empty_output_buffer w ok ;; ret tt
  end.

Fixpoint run (w : Z) (acts : list action) : M unit :=
  match acts with
  | [] => ret tt
  | a :: rest => perform w a ;; run w rest
  end.

(** Number of growth calls in a session. *)
Fixpoint growths (acts : list action) : nat :=
  match acts with
  | [] => O
  | WriteByte _ :: rest => growths rest
  | MoreRoom _ :: rest => S (growths rest)
  end.

(** ** Observations on a state *)

(** The block a pointer points into is live. *)
Definition live (h : gmap positive (list memval)) (p : pointer) : bool :=
  match p with
  | NULL => false
  | Ptr b _ => match h !! b with Some _ => true | None => false end
  end.

(** The sink's pointers are not dangling: [buffer] points into a live
    block, and so does [newbuffer] unless it is null. *)
Definition pointers_live (s : state) : bool :=
  match cinfo_dest s with
  | Some d =>
      live (heap s) (buffer d) &&
      (is_null (newbuffer d) || live (heap s) (newbuffer d))
  | None => false
  end.

Definition same_block (p q : pointer) : bool :=
  match p, q with
  | Ptr b _, Ptr c _ => bool_decide (b = c)
  | _, _ => false
  end.

(** Offset of the next unwritten byte, as [term_mem_destination]
    computes it. *)
Definition cursor (w : Z) (d : my_mem_destination_mgr) : Z :=
  to_size_t w (bufsize d - free_in_buffer (pub d)).

(** The destination object after a successful growth into block [nb]. *)
Definition grown (w : Z) (nb : block) (d : my_mem_destination_mgr)
  : my_mem_destination_mgr :=
  mk_dest (mk_pub (Ptr nb (0 + bufsize d)) (bufsize d) (init_destination (pub d))
             (empty_output_buffer (pub d)) (term_destination (pub d)))
    (outbuffer d) (outsize d) (Ptr nb 0) (Ptr nb 0)
    (to_size_t w (bufsize d * 2)) (alloc d).

(** The caller supplied no usable buffer: [*outbuffer == NULL || *outsize == 0]. *)
Definition no_buffer (s : state) (lb ls : loc) : bool :=
  match ptr_vars s !! lb with
  | Some NULL => true
  | Some (Ptr _ _) =>
      match ulong_vars s !! ls with Some n => n =? 0 | None => false end
  | None => false
  end.

(** Non-null [outbuffer] and [outsize] arguments point to variables of
    the caller. *)
Definition valid_slots (s : state) (ob os : option loc) : bool :=
  match ob with
  | Some lb => match ptr_vars s !! lb with Some _ => true | None => false end
  | None => true
  end &&
  match os with
  | Some ls => match ulong_vars s !! ls with Some _ => true | None => false end
  | None => true
  end.

(** The part of the destination that describes the buffer window. *)
Definition window (d : my_mem_destination_mgr) : pointer * Z * pointer * Z :=
  (buffer d, bufsize d, next_output_byte (pub d), free_in_buffer (pub d)).

(** The destination object that a returning [jpeg_mem_dest_tj] leaves
    when the buffer is [p], its size [n], and [newbuffer] is [nbuf]. *)
Definition prepared (w : Z) (ob os : option loc) (a : bool) (nbuf p : pointer)
    (n : Z) : my_mem_destination_mgr :=
  mk_dest (mk_pub p (to_size_t w n) FN_init_mem_destination
             FN_empty_mem_output_buffer FN_term_mem_destination)
    ob os nbuf p (to_size_t w n) a.

(** The destination object as [jpeg_mem_dest_tj] finds it: the one that
    [cinfo->dest] points to or, the first time, the pool's storage with
    [newbuffer] cleared. *)
Definition entry_dest (pool_obj : my_mem_destination_mgr) (s : state)
  : my_mem_destination_mgr :=
  match cinfo_dest s with
  | Some d => d
  | None => set_newbuffer NULL pool_obj
  end.

(** The object once the method table, the caller's slots and [alloc]
    are stored into it. *)
Definition installed (ob os : option loc) (a : bool) (d : my_mem_destination_mgr)
  : my_mem_destination_mgr :=
  set_alloc a (set_outsize os (set_outbuffer ob
    (set_term_destination FN_term_mem_destination
      (set_empty_output_buffer FN_empty_mem_output_buffer
        (set_init_destination FN_init_mem_destination d))))).

(** The condition under which [jpeg_mem_dest_tj] reports
    [JERR_BUFFER_SIZE]: a slot is missing, or there is no buffer and no
    permission to allocate one. *)
Definition configuration_error (s : state) (ob os : option loc) (a : bool) : bool :=
  match ob, os with
  | Some lb, Some ls => no_buffer s lb ls && negb a
  | _, _ => true
  end.

(** [term_mem_destination] can store through the slots it uses. *)
Definition term_ready (s : state) (d : my_mem_destination_mgr) : bool :=
  valid_slots s (if alloc d then outbuffer d else None) (outsize d) &&
  (if alloc d then negb (is_null_loc (outbuffer d)) else true) &&
  negb (is_null_loc (outsize d)).

(** The blocks of a heap are the blocks [D0] of the caller and, when
    [newbuffer] is not null, the one block it points to, which is not
    one of the caller's. *)
Definition accounted (D0 : gset positive) (s : state) : Prop :=
  match cinfo_dest s with
  | Some d =>
      match newbuffer d with
      | NULL => dom (heap s) = D0
      | Ptr b _ => (b ∉ D0) /\ dom (heap s) = {[b]} ∪ D0
      end
  | None => False
  end.

(** A pointer to the first byte of its block, as [malloc] returns it. *)
Definition block_start (p : pointer) : bool :=
  match p with
  | NULL => false
  | Ptr _ o => o =? 0
  end.

(** [n] bytes can be read at [p]. *)
Definition readable (h : gmap positive (list memval)) (p : pointer) (n : Z) : bool :=
  match load_bytes h p n with
  | Some _ => true
  | None => false
  end.

(** Modelled from the spec: the producer's protocol, which the comment
    before [empty_mem_output_buffer] states as well (the method is
    called whenever the buffer fills up).  The producer writes a byte
    and, if no room is left, asks for more. *)
Definition emit_byte (w : Z) (malloc_ok : bool) (v : byte) : M unit :=
  perform w (WriteByte v) ;;
  dest <- get_dest ;;
  if free_in_buffer (pub dest) =? 0
  then perform w (MoreRoom malloc_ok)
  else ret tt.

Fixpoint emit_bytes (w : Z) (malloc_ok : bool) (vs : list byte) : M unit :=
  match vs with
  | [] => ret tt
  | v :: rest => emit_byte w malloc_ok v ;; emit_bytes w malloc_ok rest
  end.

(** The sink is consistent and holds the bytes [bs]: its pointers are
    valid, the capacity is positive and fits [size_t],
    [free_in_buffer] is between [lo] and the capacity,
    [next_output_byte] is the buffer plus the cursor, the buffer holds
    [bufsize] cells and the cells below the cursor are [bs]. *)
Definition window_holds (w : Z) (lo : Z) (s : state) (bs : list byte) : Prop :=
  exists d cells,
    cinfo_dest s = Some d /\ pointers_live s = true /\
    lo <= free_in_buffer (pub d) <= bufsize d /\ 0 < bufsize d < 2 ^ w /\
    next_output_byte (pub d) =
      ptr_add (buffer d) (bufsize d - free_in_buffer (pub d)) /\
    load_bytes (heap s) (buffer d) (bufsize d) = Some cells /\
    take (Z.to_nat (bufsize d - free_in_buffer (pub d))) cells = Vbyte <$> bs.

(** The sink still refers to the caller's variables [lb] and [ls], and
    a sink that may not grow still writes into the buffer that the
    caller's pointer holds. *)
Definition slots_hold (lb ls : loc) (s : state) : Prop :=
  exists d,
    cinfo_dest s = Some d /\ outbuffer d = Some lb /\ outsize d = Some ls /\
    (alloc d = false -> ptr_vars s !! lb = Some (buffer d)).

(** ** Concrete sessions

    The states below are computed by the functions above on a 32-bit
    target; they serve as test inputs. *)

Module Scenario.

(** Some content for the storage that the pool hands out. *)
Definition pool_junk : my_mem_destination_mgr :=
  mk_dest (mk_pub (Ptr 9 3) 77 (FN_other 1) (FN_other 2) (FN_other 3))
    None (Some 5%positive) (Ptr 9 0) (Ptr 8 1) 55 false.

(** A caller whose pointer variable 1 is null and whose size variable 1
    is zero. *)
Definition caller_without_buffer : state :=
  mk_state ∅ {[1%positive := NULL]} {[1%positive := 0]} None.

(** A caller who owns a buffer of four bytes, block 1. *)
Definition caller_with_buffer : state :=
  mk_state {[1%positive := replicate 4 Vundef]}
    {[1%positive := Ptr 1 0]} {[1%positive := 4]} None.

Definition state_of {A} (o : outcome A) : state :=
  match o with
  | Done _ s => s
  | ErrorExit _ _ s => s
  | Undefined => caller_without_buffer
  end.

Definition dest_of (s : state) : my_mem_destination_mgr :=
  match cinfo_dest s with
  | Some d => d
  | None => pool_junk
  end.

Definition slot : option loc := Some 1%positive.

(** The sink allocates its first buffer itself. *)
Definition sink_allocated : state :=
  state_of (jpeg_mem_dest_tj 32 pool_junk true slot slot true caller_without_buffer).

Definition sink_allocated_grown : state :=
  state_of (empty_mem_output_buffer 32 true sink_allocated).

(** The sink starts in the caller's buffer and may grow. *)
Definition sink_borrowed : state :=
  state_of (jpeg_mem_dest_tj 32 pool_junk true slot slot true caller_with_buffer).

Definition four_bytes : list action :=
  [WriteByte x4a; WriteByte x46; WriteByte x49; WriteByte x46].

Definition sink_borrowed_full : state :=
  state_of (run 32 four_bytes sink_borrowed).

Definition sink_borrowed_grown : state :=
  state_of (empty_mem_output_buffer 32 true sink_borrowed_full).

Definition two_growths : list action :=
  four_bytes ++ [MoreRoom true] ++ four_bytes ++ [MoreRoom true].

Definition sink_borrowed_twice : state :=
  state_of (run 32 two_growths sink_borrowed).

(** The sink writes into the caller's buffer and may not grow. *)
Definition sink_fixed : state :=
  state_of (jpeg_mem_dest_tj 32 pool_junk true slot slot false caller_with_buffer).

Definition sink_fixed_full : state :=
  state_of (run 32 four_bytes sink_fixed).

(** Three bytes written into a buffer of four. *)
Definition sink_fixed_three : state :=
  state_of (run 32 [WriteByte x4a; WriteByte x46; WriteByte x49] sink_fixed).

(** A second session on the [cinfo] of [sink_allocated]: the first one
    is finished, and the caller starts again ... *)
Definition first_session_done : state :=
  state_of (term_mem_destination 32 sink_allocated).

(** ... without a buffer, *)
Definition second_caller_without_buffer : state :=
  set_ulong_vars {[1%positive := 0]}
    (set_ptr_vars {[1%positive := NULL]} first_session_done).

Definition second_sink_allocated : state :=
  state_of (jpeg_mem_dest_tj 32 pool_junk true slot slot true
              second_caller_without_buffer).

Definition second_sink_allocated_grown : state :=
  state_of (empty_mem_output_buffer 32 true second_sink_allocated).

(** ... or with a buffer of its own, block 2. *)
Definition second_caller_with_buffer : state :=
  set_heap (<[2%positive := replicate 4 Vundef]> (heap first_session_done))
    (set_ulong_vars {[1%positive := 4]}
       (set_ptr_vars {[1%positive := Ptr 2 0]} first_session_done)).

Definition second_sink_borrowed : state :=
  state_of (jpeg_mem_dest_tj 32 pool_junk true slot slot true
              second_caller_with_buffer).

Definition second_sink_borrowed_full : state :=
  state_of (run 32 four_bytes second_sink_borrowed).

Definition second_sink_borrowed_grown : state :=
  state_of (empty_mem_output_buffer 32 true second_sink_borrowed_full).

(** The end of the session that grew out of the caller's buffer. *)
Definition sink_borrowed_done : state :=
  state_of (term_mem_destination 32 sink_borrowed_grown).

(** A caller whose pointer is not null but whose size is zero. *)
Definition caller_with_empty_buffer : state :=
  mk_state {[1%positive := replicate 4 Vundef]}
    {[1%positive := Ptr 1 0]} {[1%positive := 0]} None.

(** A sink whose capacity is half of what [size_t] can hold. *)
Definition caller_with_huge_buffer : state :=
  mk_state {[1%positive := replicate 4 Vundef]}
    {[1%positive := Ptr 1 0]} {[1%positive := 2 ^ 31]} None.

Definition sink_huge : state :=
  state_of (jpeg_mem_dest_tj 32 pool_junk true slot slot true
              caller_with_huge_buffer).

(** A second session after the caller has released the buffer that the
    first session returned (block 2) and has allocated a buffer of its
    own (block 1): [newbuffer] still holds the released block. *)
Definition second_caller_after_release : state :=
  mk_state {[1%positive := replicate 4 Vundef]}
    {[1%positive := Ptr 1 0]} {[1%positive := 4]}
    (cinfo_dest (state_of (term_mem_destination 32 sink_allocated_grown))).

Definition second_sink_stale : state :=
  state_of (run 32 four_bytes
              (state_of (jpeg_mem_dest_tj 32 pool_junk true slot slot true
                           second_caller_after_release))).

Definition second_sink_stale_grown : state :=
  state_of (empty_mem_output_buffer 32 true second_sink_stale).

(** Six bytes through a buffer of four. *)
Definition six_bytes : list byte := [x4a; x46; x49; x46; x00; x01].

Definition sink_emitted : state :=
  state_of (emit_bytes 32 true six_bytes sink_borrowed).

Definition sink_emitted_done : state :=
  state_of (term_mem_destination 32 sink_emitted).

End Scenario.

(** * Properties *)

Arguments load_bytes : simpl never.
Arguments store_bytes : simpl never.

(** ** Memory *)

Section MemoryFacts.

Implicit Types (h : gmap positive (list memval)) (vs cells : list memval).

Lemma load_bytes_Some h p n vs :
  load_bytes h p n = Some vs ->
  exists b o cells,
    p = Ptr b o /\ h !! b = Some cells /\ 0 <= o /\ 0 <= n /\
    o + n <= Z.of_nat (length cells) /\
    vs = take (Z.to_nat n) (drop (Z.to_nat o) cells).
Proof.
  unfold load_bytes. destruct p as [|b o]; [discriminate|].
  destruct (h !! b) as [cells|] eqn:Hb; [|discriminate].
  destruct (0 <=? o) eqn:Ho; [|discriminate].
  destruct (0 <=? n) eqn:Hn; [|discriminate].
  destruct (o + n <=? Z.of_nat (length cells)) eqn:Hl; [|discriminate].
  simpl. intros [= <-]. exists b, o, cells. repeat split; auto; lia.
Qed.

Lemma load_bytes_length h p n vs :
  load_bytes h p n = Some vs -> 0 <= n /\ Z.of_nat (length vs) = n.
Proof.
  intros (b & o & cells & -> & _ & Ho & Hn & Hl & ->)%load_bytes_Some.
  split; [assumption|]. rewrite length_take, length_drop. lia.
Qed.

Lemma load_bytes_live h p n vs :
  load_bytes h p n = Some vs -> live h p = true.
Proof.
  intros (b & o & cells & -> & Hb & _)%load_bytes_Some.
  simpl. now rewrite Hb.
Qed.

Lemma load_bytes_insert_ne h b cells p n :
  live h p = true -> h !! b = None ->
  load_bytes (<[b := cells]> h) p n = load_bytes h p n.
Proof.
  destruct p as [|c o]; [reflexivity|]. simpl. intros Hl Hb.
  unfold load_bytes. rewrite lookup_insert_ne; [reflexivity|].
  intros ->. rewrite Hb in Hl. discriminate.
Qed.


Lemma store_bytes_Some h b o vs h' :
  store_bytes h (Ptr b o) vs = Some h' ->
  exists cells,
    h !! b = Some cells /\ 0 <= o /\
    o + Z.of_nat (length vs) <= Z.of_nat (length cells) /\
    h' = <[b := take (Z.to_nat o) cells ++ vs
                  ++ drop (Z.to_nat o + length vs) cells]> h.
Proof.
  unfold store_bytes.
  destruct (h !! b) as [cells|] eqn:Hb; [|discriminate].
  destruct (0 <=? o) eqn:Ho; [|discriminate].
  destruct (o + Z.of_nat (length vs) <=? Z.of_nat (length cells)) eqn:Hl;
    [|discriminate].
  simpl. intros [= <-]. exists cells. repeat split; auto; lia.
Qed.


Lemma store_bytes_dom h p vs h' :
  store_bytes h p vs = Some h' -> dom h' = dom h.
Proof.
  destruct p as [|b o]; [discriminate|].
  intros (cells & Hb & _ & _ & ->)%store_bytes_Some.
  apply dom_insert_lookup_L. eauto.
Qed.

Lemma store_bytes_live h p vs h' q :
  store_bytes h p vs = Some h' -> live h' q = live h q.
Proof.
  destruct p as [|b o]; [discriminate|].
  intros (cells & Hb & _ & _ & ->)%store_bytes_Some.
  destruct q as [|c oc]; [reflexivity|]. simpl.
  destruct (decide (b = c)) as [->|Hne].
  - now rewrite lookup_insert_eq, Hb.
  - now rewrite lookup_insert_ne.
Qed.

End MemoryFacts.

(** ** Word arithmetic *)

Section WordFacts.

Variable w : Z.

(** A doubled size that still holds the old size did not wrap around. *)
Lemma doubling_did_not_wrap (n : Z) :
  0 <= n -> n <= Z.of_nat (Z.to_nat (to_size_t w (n * 2))) ->
  to_size_t w (n * 2) = n * 2.
Proof.
  unfold to_size_t. intros Hn Hle.
  destruct (Z.eq_dec (2 ^ w) 0) as [E|E].
  - rewrite E. now rewrite Z.mod_0_r.
  - assert (Hm : 0 < 2 ^ w) by (pose proof (Z.pow_nonneg 2 w); lia).
    pose proof (Z.mod_pos_bound (n * 2) (2 ^ w) Hm) as Hb.
    rewrite Z2Nat.id in Hle by lia.
    pose proof (Z.div_mod (n * 2) (2 ^ w) E) as Hd.
    assert (Hq : 0 <= n * 2 / 2 ^ w) by (apply Z.div_pos; lia).
    assert (n * 2 / 2 ^ w = 0) by nia.
    apply Z.mod_small. apply Z.div_small_iff in H; lia.
Qed.

Lemma to_size_t_small (n : Z) :
  0 <= n -> to_size_t w (n * 2) = n * 2 -> to_size_t w n = n.
Proof.
  unfold to_size_t. intros Hn H2.
  destruct (Z.eq_dec (2 ^ w) 0) as [E|E].
  - rewrite E. now rewrite Z.mod_0_r.
  - assert (Hm : 0 < 2 ^ w) by (pose proof (Z.pow_nonneg 2 w); lia).
    pose proof (Z.mod_pos_bound (n * 2) (2 ^ w) Hm) as Hb.
    apply Z.mod_small. lia.
Qed.

Lemma to_ulong_to_size_t (z : Z) : to_ulong w (to_size_t w z) = to_size_t w z.
Proof. unfold to_ulong, to_size_t. apply Zmod_mod. Qed.

End WordFacts.

(** ** Growth: [empty_mem_output_buffer] *)

Section GrowthFacts.

Variable w : Z.

(** Every step of a call that returns. *)
Lemma empty_mem_output_buffer_Done (ok : bool) (s s' : state) (r : bool) :
  empty_mem_output_buffer w ok s = Done r s' ->
  exists d vs h2,
    cinfo_dest s = Some d /\ alloc d = true /\ ok = true /\ r = true /\
    let nb := fresh (dom (heap s)) in
    let h1 := <[nb := replicate (Z.to_nat (to_size_t w (bufsize d * 2))) Vundef]>
                (heap s) in
    load_bytes h1 (buffer d) (bufsize d) = Some vs /\
    store_bytes h1 (Ptr nb 0) vs = Some h2 /\
    (newbuffer d = NULL /\ heap s' = h2 \/
     exists b, newbuffer d = Ptr b 0 /\ is_Some (h2 !! b) /\ heap s' = delete b h2) /\
    ptr_vars s' = ptr_vars s /\ ulong_vars s' = ulong_vars s /\
    cinfo_dest s' = Some (grown w nb d).
Proof.
  unfold empty_mem_output_buffer, bind, get_dest.
  destruct s as [h pv uv [d|]]; simpl; [|discriminate].
  destruct (alloc d) eqn:Ha; simpl; [|discriminate].
  destruct ok; simpl; [|discriminate].
  unfold MEMCOPY; simpl.
  destruct (load_bytes _ (buffer d) (bufsize d)) as [vs|] eqn:Hl; [|discriminate].
  match goal with
  | |- context [store_bytes ?h ?p ?v] =>
      destruct (store_bytes h p v) as [h2|] eqn:Hs
  end; [|discriminate].
  simpl.
  destruct (newbuffer d) as [|b o] eqn:Hn; simpl.
  - intros [= <- <-]. exists d, vs, h2. simpl. repeat split; auto.
  - destruct (h2 !! b) eqn:Hb; [|discriminate].
    destruct (Z.eqb_spec o 0) as [->|]; [|discriminate].
    simpl. intros [= <- <-]. exists d, vs, h2. simpl. repeat split; auto.
    right. exists b. rewrite Hb. eauto.
Qed.

Lemma fresh_block_not_live (h : gmap positive (list memval)) :
  h !! fresh (dom h) = None.
Proof. apply not_elem_of_dom, is_fresh. Qed.

(** The copy into the new block succeeded, so the doubled size did not
    wrap around. *)
Lemma empty_mem_output_buffer_size (ok : bool) (s s' : state) (r : bool)
    (d : my_mem_destination_mgr) :
  cinfo_dest s = Some d ->
  empty_mem_output_buffer w ok s = Done r s' ->
  0 <= bufsize d /\ to_size_t w (bufsize d * 2) = bufsize d * 2 /\
  cinfo_dest s' = Some (grown w (fresh (dom (heap s))) d).
Proof.
  intros Hd (d0 & vs & h2 & Hd0 & _ & _ & _ & Hload & Hstore & _ & _ & _ & Hd')
    %empty_mem_output_buffer_Done.
  rewrite Hd in Hd0. injection Hd0 as <-.
  apply load_bytes_length in Hload as [Hn Hlen].
  apply store_bytes_Some in Hstore as (cells & Hc & _ & Hle & _).
  rewrite lookup_insert_eq in Hc. injection Hc as <-.
  rewrite length_replicate in Hle.
  split; [assumption|]. split; [|assumption].
  apply doubling_did_not_wrap; lia.
Qed.

(** Error exits of the growth step leave the state as it was. *)
Lemma empty_mem_output_buffer_ErrorExit (ok : bool) (s s' : state)
    (c : msg_code) (p : option Z) :
  empty_mem_output_buffer w ok s = ErrorExit c p s' ->
  s' = s /\
  exists d, cinfo_dest s = Some d /\
    (alloc d = false /\ c = JERR_BUFFER_SIZE /\ p = None \/
     alloc d = true /\ ok = false /\ c = JERR_OUT_OF_MEMORY /\ p = Some 10).
Proof.
  unfold empty_mem_output_buffer, bind, get_dest.
  destruct s as [h pv uv [d|]]; simpl; [|discriminate].
  destruct (alloc d) eqn:Ha; simpl.
  - destruct ok; simpl.
    + unfold MEMCOPY; simpl.
      destruct (load_bytes _ (buffer d) (bufsize d)) as [vs|]; [|discriminate].
      match goal with
      | |- context [store_bytes ?h ?p ?v] => destruct (store_bytes h p v) as [h2|]
      end; [|discriminate].
      simpl. destruct (newbuffer d) as [|b o]; simpl; [discriminate|].
      destruct (h2 !! b); [|discriminate].
      destruct (o =? 0); discriminate.
    + intros [= <- <- <-]. split; [reflexivity|]. exists d. auto 10.
  - intros [= <- <- <-]. split; [reflexivity|]. exists d. auto 10.
Qed.

End GrowthFacts.

(** ** Sessions *)

Section SessionFacts.

Variable w : Z.

Lemma producer_write_Done (v : byte) (s s' : state) :
  producer_write w v s = Done tt s' ->
  exists d h',
    cinfo_dest s = Some d /\
    store_bytes (heap s) (next_output_byte (pub d)) [Vbyte v] = Some h' /\
    heap s' = h' /\ ptr_vars s' = ptr_vars s /\ ulong_vars s' = ulong_vars s /\
    cinfo_dest s' =
      Some (set_free_in_buffer (to_size_t w (free_in_buffer (pub d) - 1))
              (set_next_output_byte (ptr_add (next_output_byte (pub d)) 1) d)).
Proof.
  unfold producer_write, bind, get_dest.
  destruct s as [h pv uv [d|]]; simpl; [|discriminate].
  destruct (store_bytes h (next_output_byte (pub d)) [Vbyte v]) as [h'|] eqn:Hs;
    [|discriminate].
  simpl. intros [= <-]. exists d, h'. auto 10.
Qed.

Lemma run_cons (a : action) (acts : list action) (s s' : state) :
  run w (a :: acts) s = Done tt s' ->
  exists s1, perform w a s = Done tt s1 /\ run w acts s1 = Done tt s'.
Proof.
  simpl. unfold bind. destruct (perform w a s) as [[] s1| |]; try discriminate.
  eauto.
Qed.

Lemma perform_MoreRoom (ok : bool) (s s' : state) :
  perform w (MoreRoom ok) s = Done tt s' ->
  empty_mem_output_buffer w ok s = Done true s'.
Proof.
  simpl. unfold call_empty_output_buffer, bind, get_dest, undefined.
  destruct (cinfo_dest s) as [d|]; [|discriminate].
  destruct (empty_output_buffer (pub d)); try discriminate.
  destruct (empty_mem_output_buffer w ok s) as [r s1| |] eqn:E; try discriminate.
  intros [= <-]. apply empty_mem_output_buffer_Done in E as H.
  destruct H as (_ & _ & _ & _ & _ & _ & -> & _). reflexivity.
Qed.

End SessionFacts.

Section GrowthReturns.

Variable w : Z.

(** The call returns when growth is allowed, [malloc] succeeds, the
    buffer holds [bufsize] bytes, the doubled size fits [size_t], and
    [newbuffer] is null or the start of a live block. *)
Lemma empty_mem_output_buffer_returns (s : state) (d : my_mem_destination_mgr)
    (vs : list memval) :
  cinfo_dest s = Some d ->
  alloc d = true ->
  load_bytes (heap s) (buffer d) (bufsize d) = Some vs ->
  bufsize d * 2 < 2 ^ w ->
  (newbuffer d = NULL \/ exists b, newbuffer d = Ptr b 0 /\ is_Some (heap s !! b)) ->
  exists s', empty_mem_output_buffer w true s = Done true s'.
Proof.
  intros Hd Ha Hload Hfit Hnew.
  pose proof (fresh_block_not_live (heap s)) as Hfresh.
  destruct (load_bytes_length _ _ _ _ Hload) as [Hn Hlen].
  assert (Hsz : to_size_t w (bufsize d * 2) = bufsize d * 2)
    by (unfold to_size_t; apply Z.mod_small; lia).
  unfold empty_mem_output_buffer, bind, get_dest.
  destruct s as [h pv uv cd]. simpl in *. subst cd. rewrite Ha. simpl.
  unfold MEMCOPY. simpl.
  rewrite load_bytes_insert_ne
    by (eauto using load_bytes_live).
  rewrite Hload, Hsz.
  unfold store_bytes. rewrite lookup_insert_eq.
  match goal with
  | |- context [if ?c then Some ?x else None] =>
      assert (Hc : c = true)
        by (rewrite andb_true_iff, !Z.leb_le, length_replicate; lia);
      rewrite Hc
  end.
  simpl.
  destruct Hnew as [->|(b & -> & [cells Hb])]; simpl; [eauto|].
  assert (Hne : fresh (dom h) <> b) by (intros E; rewrite E in Hfresh; congruence).
  rewrite !lookup_insert_ne, Hb by assumption. simpl. eauto.
Qed.

End GrowthReturns.

Section SessionInvariants.

Variable w : Z.

(** A session never changes the permission to grow. *)
Lemma run_alloc (acts : list action) :
  forall (s s' : state) (d : my_mem_destination_mgr),
    cinfo_dest s = Some d -> run w acts s = Done tt s' ->
    exists d', cinfo_dest s' = Some d' /\ alloc d' = alloc d.
Proof.
  induction acts as [|a acts IH]; intros s s' d Hd Hrun.
  - injection Hrun as <-. eauto.
  - apply run_cons in Hrun as (s1 & Hstep & Hrest).
    destruct a as [v|ok].
    + apply producer_write_Done in Hstep
        as (d0 & h' & Hd0 & _ & _ & _ & _ & Hd1).
      rewrite Hd in Hd0. injection Hd0 as <-.
      destruct (IH _ _ _ Hd1 Hrest) as (d' & Hd' & Ha). eauto.
    + apply perform_MoreRoom in Hstep.
      destruct (empty_mem_output_buffer_size w _ _ _ _ _ Hd Hstep) as (_ & _ & Hd1).
      destruct (IH _ _ _ Hd1 Hrest) as (d' & Hd' & Ha). eauto.
Qed.

(** Writing bytes leaves [newbuffer] alone. *)
Lemma run_writes_newbuffer (acts : list action) :
  forall (s s' : state) (d : my_mem_destination_mgr),
    growths acts = O ->
    cinfo_dest s = Some d -> run w acts s = Done tt s' ->
    exists d', cinfo_dest s' = Some d' /\ newbuffer d' = newbuffer d.
Proof.
  induction acts as [|a acts IH]; intros s s' d Hg Hd Hrun.
  - injection Hrun as <-. eauto.
  - apply run_cons in Hrun as (s1 & Hstep & Hrest).
    destruct a as [v|ok]; [|discriminate].
    apply producer_write_Done in Hstep
      as (d0 & h' & Hd0 & _ & _ & _ & _ & Hd1).
    rewrite Hd in Hd0. injection Hd0 as <-.
    destruct (IH _ _ _ Hg Hd1 Hrest) as (d' & Hd' & Ha). eauto.
Qed.

End SessionInvariants.

Section SinkPointers.

Variable w : Z.

(** The block that a returning growth step allocated is live after the
    call, unless a dangling [newbuffer] made the step free it. *)
Lemma growth_new_block_live (ok : bool) (s s' : state) (r : bool)
    (d : my_mem_destination_mgr) :
  cinfo_dest s = Some d ->
  is_null (newbuffer d) || live (heap s) (newbuffer d) = true ->
  empty_mem_output_buffer w ok s = Done r s' ->
  live (heap s') (Ptr (fresh (dom (heap s))) 0) = true.
Proof.
  intros Hd Hnew
    (d0 & vs & h2 & Hd0 & _ & _ & _ & _ & Hstore & Hfree & _)
    %empty_mem_output_buffer_Done.
  rewrite Hd in Hd0. injection Hd0 as <-.
  pose proof (fresh_block_not_live (heap s)) as Hfresh.
  assert (Hnb : live h2 (Ptr (fresh (dom (heap s))) 0) = true).
  { rewrite (store_bytes_live _ _ _ _ _ Hstore). simpl.
    now rewrite lookup_insert_eq. }
  destruct Hfree as [[_ ->]|(b & Hb & _ & ->)]; [exact Hnb|].
  rewrite Hb in Hnew. simpl in Hnew |- *.
  rewrite lookup_delete_ne; [exact Hnb|].
  intros ->. now rewrite Hfresh in Hnew.
Qed.

Lemma empty_mem_output_buffer_pointers_live (ok : bool) (s s' : state) (r : bool) :
  pointers_live s = true ->
  empty_mem_output_buffer w ok s = Done r s' ->
  pointers_live s' = true.
Proof.
  unfold pointers_live. intros Hlive Hgrow.
  destruct (cinfo_dest s) as [d|] eqn:Hd; [|discriminate].
  apply andb_true_iff in Hlive as [_ Hnew].
  pose proof (growth_new_block_live _ _ _ _ _ Hd Hnew Hgrow) as Hnb.
  destruct (empty_mem_output_buffer_size w _ _ _ _ _ Hd Hgrow) as (_ & _ & ->).
  cbn [grown buffer newbuffer is_null]. rewrite Hnb. reflexivity.
Qed.

Lemma producer_write_pointers_live (v : byte) (s s' : state) :
  pointers_live s = true ->
  producer_write w v s = Done tt s' ->
  pointers_live s' = true.
Proof.
  unfold pointers_live.
  intros Hlive (d & h' & Hd & Hstore & Hh & _ & _ & ->)%producer_write_Done.
  rewrite Hd in Hlive. rewrite Hh.
  cbn [set_free_in_buffer set_next_output_byte buffer newbuffer].
  now rewrite !(store_bytes_live _ _ _ _ _ Hstore).
Qed.

(** A session keeps the sink's pointers valid. *)
Lemma run_pointers_live (acts : list action) :
  forall s s' : state,
    pointers_live s = true -> run w acts s = Done tt s' ->
    pointers_live s' = true.
Proof.
  induction acts as [|a acts IH]; intros s s' Hlive Hrun.
  - now injection Hrun as <-.
  - apply run_cons in Hrun as (s1 & Hstep & Hrest).
    apply (IH s1 s'); [|assumption].
    destruct a as [v|ok].
    + eapply producer_write_pointers_live; eassumption.
    + apply perform_MoreRoom in Hstep.
      eapply empty_mem_output_buffer_pointers_live; eassumption.
Qed.

(** Each byte that the producer writes advances the cursor by one. *)
Lemma producer_write_cursor (v : byte) (s s' : state) (d : my_mem_destination_mgr) :
  cinfo_dest s = Some d ->
  producer_write w v s = Done tt s' ->
  exists d', cinfo_dest s' = Some d' /\ bufsize d' = bufsize d /\
             cursor w d' = to_size_t w (cursor w d + 1).
Proof.
  intros Hd (d0 & h' & Hd0 & _ & _ & _ & _ & Hd')%producer_write_Done.
  rewrite Hd in Hd0. injection Hd0 as <-.
  eexists. split; [exact Hd'|]. split; [reflexivity|].
  unfold cursor, to_size_t. simpl.
  rewrite Zminus_mod_idemp_r, Zplus_mod_idemp_l. f_equal. lia.
Qed.

Lemma run_writes_cursor (acts : list action) :
  forall (s s' : state) (d : my_mem_destination_mgr),
    growths acts = O ->
    cinfo_dest s = Some d -> run w acts s = Done tt s' ->
    exists d', cinfo_dest s' = Some d' /\ bufsize d' = bufsize d /\
               cursor w d' = to_size_t w (cursor w d + Z.of_nat (length acts)).
Proof.
  induction acts as [|a acts IH]; intros s s' d Hg Hd Hrun.
  - injection Hrun as <-. exists d. split; [assumption|]. split; [reflexivity|].
    unfold cursor, to_size_t. simpl. rewrite Z.add_0_r. symmetry. apply Zmod_mod.
  - apply run_cons in Hrun as (s1 & Hstep & Hrest).
    destruct a as [v|ok]; [|discriminate].
    destruct (producer_write_cursor _ _ _ _ Hd Hstep) as (d1 & Hd1 & Hb1 & Hc1).
    destruct (IH _ _ _ Hg Hd1 Hrest) as (d' & Hd' & Hb' & Hc').
    exists d'. split; [assumption|]. split; [congruence|].
    rewrite Hc', Hc1. unfold to_size_t.
    rewrite Zplus_mod_idemp_l. f_equal. simpl length. lia.
Qed.

End SinkPointers.

(** ** The claims about growth *)

(** C4. Starting from any capacity, after a session in which [k] calls of
    [empty_mem_output_buffer] returned (with any writes of the producer
    in between), the capacity [bufsize] is the initial one times [2 ^ k]:
    a call whose doubled size wraps around does not return. *)
Theorem capacity_doubles_per_growth (w : Z) (acts : list action) :
  forall (s s' : state) (d : my_mem_destination_mgr),
    cinfo_dest s = Some d ->
    run w acts s = Done tt s' ->
    exists d', cinfo_dest s' = Some d' /\
               bufsize d' = bufsize d * 2 ^ Z.of_nat (growths acts).
Proof.
  induction acts as [|a acts IH]; intros s s' d Hd Hrun.
  - injection Hrun as <-. exists d. split; [assumption|]. simpl. lia.
  - apply run_cons in Hrun as (s1 & Hstep & Hrest).
    destruct a as [v|ok].
    + apply producer_write_Done in Hstep
        as (d0 & h' & Hd0 & _ & _ & _ & _ & Hd1).
      rewrite Hd in Hd0. injection Hd0 as <-.
      destruct (IH _ _ _ Hd1 Hrest) as (d' & Hd' & Hsz).
      exists d'. split; [assumption|]. exact Hsz.
    + apply perform_MoreRoom in Hstep.
      destruct (empty_mem_output_buffer_size w _ _ _ _ _ Hd Hstep)
        as (_ & Hdouble & Hd1).
      destruct (IH _ _ _ Hd1 Hrest) as (d' & Hd' & Hsz).
      exists d'. split; [assumption|].
      rewrite Hsz. simpl bufsize. rewrite Hdouble.
      change (growths (MoreRoom ok :: acts)) with (S (growths acts)).
      rewrite Nat2Z.inj_succ, Z.pow_succ_r by lia. lia.
Qed.

(** C6. After a call of [empty_mem_output_buffer] that returned, the
    capacity is twice the old one, [next_output_byte] points just after
    the first [capacity_old] bytes of the new buffer, the cursor is the
    old capacity, and the room left, [free_in_buffer], is the capacity
    minus the cursor and at least the old capacity. *)
Theorem growth_window (w : Z) (ok : bool) (s s' : state)
    (d : my_mem_destination_mgr) :
  cinfo_dest s = Some d ->
  empty_mem_output_buffer w ok s = Done true s' ->
  exists d', cinfo_dest s' = Some d' /\
    bufsize d' = bufsize d * 2 /\
    next_output_byte (pub d') = ptr_add (buffer d') (bufsize d) /\
    cursor w d' = bufsize d /\
    free_in_buffer (pub d') = bufsize d' - cursor w d' /\
    bufsize d <= free_in_buffer (pub d').
Proof.
  intros Hd Hgrow.
  destruct (empty_mem_output_buffer_size w _ _ _ _ _ Hd Hgrow)
    as (Hn & Hdouble & Hd').
  exists (grown w (fresh (dom (heap s))) d). split; [assumption|].
  assert (Hc : cursor w (grown w (fresh (dom (heap s))) d) = bufsize d).
  { unfold cursor. simpl. rewrite Hdouble.
    replace (bufsize d * 2 - bufsize d) with (bufsize d) by lia.
    now apply to_size_t_small. }
  rewrite Hc. simpl. rewrite Hdouble. repeat split; lia.
Qed.


(** C9. When [malloc] fails in [empty_mem_output_buffer], the call exits
    with [JERR_OUT_OF_MEMORY] and the whole state at the exit (the buffer
    pointer, the heap, capacity, cursor and [newbuffer]) is the state at
    the call. *)
Theorem growth_out_of_memory (w : Z) (s : state) (d : my_mem_destination_mgr) :
  cinfo_dest s = Some d ->
  alloc d = true ->
  empty_mem_output_buffer w false s = ErrorExit JERR_OUT_OF_MEMORY (Some 10) s.
Proof.
  intros Hd Ha. unfold empty_mem_output_buffer, bind, get_dest.
  rewrite Hd, Ha. reflexivity.
Qed.

(** C1, as the code has it. On a sink whose pointers are not dangling, a
    call of [empty_mem_output_buffer] that returned has freed the block
    that [newbuffer] pointed to, if any, and nothing else, and has
    recorded the new buffer in [newbuffer].  So the buffer that the call
    replaced is freed within the call exactly when [newbuffer] pointed
    into it, and the next call will free the new buffer, not the
    replaced one. *)
Theorem growth_frees_recorded_block (w : Z) (ok : bool) (s s' : state)
    (d : my_mem_destination_mgr) :
  cinfo_dest s = Some d ->
  pointers_live s = true ->
  empty_mem_output_buffer w ok s = Done true s' ->
  exists d', cinfo_dest s' = Some d' /\
    newbuffer d' = buffer d' /\
    live (heap s) (buffer d') = false /\
    live (heap s') (buffer d') = true /\
    live (heap s') (buffer d) = negb (same_block (newbuffer d) (buffer d)) /\
    (is_null (newbuffer d) = false -> live (heap s') (newbuffer d) = false) /\
    (forall p, live (heap s) p = true -> same_block (newbuffer d) p = false ->
               live (heap s') p = true).
Proof.
  intros Hd Hlive
    (d0 & vs & h2 & Hd0 & _ & _ & _ & Hload & Hstore & Hfree & _ & _ & Hd')
    %empty_mem_output_buffer_Done.
  unfold pointers_live in Hlive. rewrite Hd in Hlive.
  apply andb_true_iff in Hlive as [Hbuf Hnew].
  rewrite Hd in Hd0. injection Hd0 as <-.
  pose proof (fresh_block_not_live (heap s)) as Hfresh.
  set (nb := fresh (dom (heap s))) in *.
  assert (Hlive2 : forall p, live h2 p =
            live (<[nb := replicate (Z.to_nat (to_size_t w (bufsize d * 2))) Vundef]>
                    (heap s)) p)
    by (intros p; eapply store_bytes_live; eassumption).
  assert (Hkeep : forall p, live (heap s) p = true -> live h2 p = true).
  { intros [|c o] Hp; [discriminate|]. rewrite Hlive2. simpl in *.
    destruct (decide (nb = c)) as [->|Hne].
    - now rewrite lookup_insert_eq.
    - now rewrite lookup_insert_ne. }
  assert (Hnb : live h2 (Ptr nb 0) = true).
  { rewrite Hlive2. simpl. now rewrite lookup_insert_eq. }
  exists (grown w nb d). split; [assumption|]. simpl newbuffer. simpl buffer.
  split; [reflexivity|]. split; [simpl; now rewrite Hfresh|].
  destruct Hfree as [[Hn ->]|(b & Hn & _ & ->)]; rewrite Hn in *.
  - split; [exact Hnb|]. split; [simpl; now apply Hkeep|].
    split; [discriminate|]. intros p Hp _. now apply Hkeep.
  - simpl in Hnew.
    assert (Hbne : b <> nb) by (intros ->; now rewrite Hfresh in Hnew).
    split; [simpl; now rewrite lookup_delete_ne|].
    split; [|split].
    + destruct (buffer d) as [|c o] eqn:Hc; [discriminate|]. simpl.
      case_bool_decide as Hbc.
      * subst c. now rewrite lookup_delete_eq.
      * rewrite lookup_delete_ne by assumption.
        exact (Hkeep (Ptr c o) Hbuf).
    + intros _. simpl. now rewrite lookup_delete_eq.
    + intros [|c o] Hp Hsame; [discriminate|]. simpl in Hsame.
      case_bool_decide as Hbc; [discriminate|].
      simpl. rewrite lookup_delete_ne by assumption.
      exact (Hkeep (Ptr c o) Hp).
Qed.

(** ** Construction: [jpeg_mem_dest_tj] *)

Section ConstructionFacts.

Local Arguments replicate : simpl never.
Local Arguments Z.to_nat : simpl never.

Variable w : Z.
Variable pool_obj : my_mem_destination_mgr.

Ltac run_construction :=
  unfold jpeg_mem_dest_tj, bind, load_cinfo_dest, alloc_small_dest, assign,
    load_ptr_var, load_ulong_var, store_ptr_var, store_ulong_var, get_dest,
    malloc, ERREXIT, ERREXIT1, ret, entry_dest, installed, prepared;
  simpl.

Lemma jpeg_mem_dest_tj_null_slot (ok : bool) (ob os : option loc) (a : bool) (s : state) :
  ob = None \/ os = None ->
  jpeg_mem_dest_tj w pool_obj ok ob os a s = ErrorExit JERR_BUFFER_SIZE None s.
Proof.
  intros [-> | ->]; unfold jpeg_mem_dest_tj, bind; simpl; [reflexivity|].
  destruct ob; reflexivity.
Qed.

Lemma jpeg_mem_dest_tj_supplied (ok : bool) (lb ls : loc) (a : bool) (s : state)
    (p : pointer) (n : Z) :
  ptr_vars s !! lb = Some p -> ulong_vars s !! ls = Some n ->
  is_null p = false -> n <> 0 ->
  jpeg_mem_dest_tj w pool_obj ok (Some lb) (Some ls) a s =
    Done tt (set_cinfo_dest
               (Some (prepared w (Some lb) (Some ls) a
                        (newbuffer (entry_dest pool_obj s)) p n)) s).
Proof.
  destruct s as [h pv uv cd]. simpl. intros Hp Hn Hnull Hnz.
  apply Z.eqb_neq in Hnz.
  run_construction.
  destruct cd as [d|]; simpl; rewrite Hp; simpl; rewrite Hnull; simpl;
    rewrite Hn; simpl; rewrite Hnz; simpl; rewrite Hp; simpl; rewrite Hn;
    reflexivity.
Qed.

Lemma jpeg_mem_dest_tj_refused (ok : bool) (lb ls : loc) (s : state) :
  valid_slots s (Some lb) (Some ls) = true ->
  no_buffer s lb ls = true ->
  jpeg_mem_dest_tj w pool_obj ok (Some lb) (Some ls) false s =
    ErrorExit JERR_BUFFER_SIZE None
      (set_cinfo_dest
         (Some (installed (Some lb) (Some ls) false (entry_dest pool_obj s))) s).
Proof.
  destruct s as [h pv uv cd]. unfold valid_slots, no_buffer. simpl.
  destruct (pv !! lb) as [p|] eqn:Hp; [|discriminate].
  destruct (uv !! ls) as [n|] eqn:Hn; [|discriminate].
  intros _ Hnb.
  run_construction.
  destruct cd as [d|]; simpl; rewrite Hp; simpl;
    (destruct p as [|b o]; simpl; [reflexivity|]);
    rewrite Hn; simpl; rewrite Hnb; reflexivity.
Qed.

Lemma jpeg_mem_dest_tj_allocated (lb ls : loc) (s : state) :
  valid_slots s (Some lb) (Some ls) = true ->
  no_buffer s lb ls = true ->
  let nb := fresh (dom (heap s)) in
  jpeg_mem_dest_tj w pool_obj true (Some lb) (Some ls) true s =
    Done tt
      (mk_state (<[nb := replicate (Z.to_nat OUTPUT_BUF_SIZE) Vundef]> (heap s))
         (<[lb := Ptr nb 0]> (ptr_vars s))
         (<[ls := to_ulong w OUTPUT_BUF_SIZE]> (ulong_vars s))
         (Some (prepared w (Some lb) (Some ls) true (Ptr nb 0) (Ptr nb 0)
                  (to_ulong w OUTPUT_BUF_SIZE)))).
Proof.
  destruct s as [h pv uv cd]. unfold valid_slots, no_buffer. simpl.
  destruct (pv !! lb) as [p|] eqn:Hp; [|discriminate].
  destruct (uv !! ls) as [n|] eqn:Hn; [|discriminate].
  intros _ Hnb.
  run_construction.
  destruct cd as [d|]; simpl; rewrite Hp; simpl;
    (destruct p as [|b o]; simpl;
     [|rewrite Hn; simpl; rewrite Hnb; simpl]);
    repeat (first [rewrite lookup_insert_eq | rewrite Hp | rewrite Hn]; simpl);
    reflexivity.
Qed.

Lemma jpeg_mem_dest_tj_out_of_memory (lb ls : loc) (s : state) :
  valid_slots s (Some lb) (Some ls) = true ->
  no_buffer s lb ls = true ->
  jpeg_mem_dest_tj w pool_obj false (Some lb) (Some ls) true s =
    ErrorExit JERR_OUT_OF_MEMORY (Some 10)
      (set_ptr_vars (<[lb := NULL]> (ptr_vars s))
         (set_cinfo_dest
            (Some (set_newbuffer NULL
                     (installed (Some lb) (Some ls) true (entry_dest pool_obj s))))
            s)).
Proof.
  destruct s as [h pv uv cd]. unfold valid_slots, no_buffer. simpl.
  destruct (pv !! lb) as [p|] eqn:Hp; [|discriminate].
  destruct (uv !! ls) as [n|] eqn:Hn; [|discriminate].
  intros _ Hnb.
  run_construction.
  destruct cd as [d|]; simpl; rewrite Hp; simpl;
    (destruct p as [|b o]; simpl;
     [|rewrite Hn; simpl; rewrite Hnb; simpl]);
    rewrite Hp; simpl; reflexivity.
Qed.

(** A call that returns was given both slots, and they were valid. *)
Lemma jpeg_mem_dest_tj_Done (ok : bool) (ob os : option loc) (a : bool) (s s' : state) :
  jpeg_mem_dest_tj w pool_obj ok ob os a s = Done tt s' ->
  exists lb ls, ob = Some lb /\ os = Some ls /\
                valid_slots s (Some lb) (Some ls) = true.
Proof.
  destruct ob as [lb|]; [|now rewrite jpeg_mem_dest_tj_null_slot by auto].
  destruct os as [ls|]; [|now rewrite jpeg_mem_dest_tj_null_slot by auto].
  intros H. exists lb, ls. split; [reflexivity|]. split; [reflexivity|].
  revert H. destruct s as [h pv uv cd]. unfold valid_slots. simpl.
  run_construction.
  destruct (pv !! lb) as [p|] eqn:Hp; [|destruct cd; simpl; rewrite Hp; discriminate].
  destruct (uv !! ls) as [n|] eqn:Hn; [reflexivity|].
  destruct cd as [d|]; simpl; rewrite Hp; simpl;
    (destruct p as [|b o]; simpl; [|rewrite Hn; discriminate]);
    (destruct a; simpl; [|discriminate]);
    destruct ok; simpl;
    repeat (first [rewrite lookup_insert_eq | rewrite Hp | rewrite Hn]; simpl);
    discriminate.
Qed.

Lemma no_buffer_false (lb ls : loc) (s : state) :
  valid_slots s (Some lb) (Some ls) = true ->
  no_buffer s lb ls = false ->
  exists p n, ptr_vars s !! lb = Some p /\ ulong_vars s !! ls = Some n /\
              is_null p = false /\ n <> 0.
Proof.
  unfold valid_slots, no_buffer.
  destruct (ptr_vars s !! lb) as [[|b o]|]; try discriminate.
  destruct (ulong_vars s !! ls) as [n|]; try discriminate.
  intros _ Hn%Z.eqb_neq. exists (Ptr b o), n. auto.
Qed.

(** The permission to grow of a constructed sink is the argument
    [alloc]. *)
Lemma jpeg_mem_dest_tj_alloc_flag (ok : bool) (ob os : option loc) (a : bool) (s s' : state) :
  jpeg_mem_dest_tj w pool_obj ok ob os a s = Done tt s' ->
  exists d, cinfo_dest s' = Some d /\ alloc d = a.
Proof.
  intros H. destruct (jpeg_mem_dest_tj_Done _ _ _ _ _ _ H)
    as (lb & ls & -> & -> & Hv).
  destruct (no_buffer s lb ls) eqn:Hnb.
  - destruct a.
    + destruct ok.
      * rewrite jpeg_mem_dest_tj_allocated in H by auto.
        injection H as <-. eexists. split; reflexivity.
      * now rewrite jpeg_mem_dest_tj_out_of_memory in H by auto.
    + now rewrite jpeg_mem_dest_tj_refused in H by auto.
  - destruct (no_buffer_false _ _ _ Hv Hnb) as (p & n & Hp & Hn & Hnull & Hnz).
    rewrite (jpeg_mem_dest_tj_supplied _ _ _ _ _ _ _ Hp Hn Hnull Hnz) in H.
    injection H as <-. eexists. split; reflexivity.
Qed.

(** The first construction on a [cinfo] yields a sink whose pointers are
    valid, provided the buffer that the caller supplies is. *)
Lemma jpeg_mem_dest_tj_pointers_live (ok : bool) (lb ls : loc) (a : bool)
    (s s' : state) (p : pointer) :
  cinfo_dest s = None ->
  ptr_vars s !! lb = Some p ->
  (is_null p = false -> live (heap s) p = true) ->
  jpeg_mem_dest_tj w pool_obj ok (Some lb) (Some ls) a s = Done tt s' ->
  pointers_live s' = true.
Proof.
  intros Hnone Hp Hbuf H.
  destruct (jpeg_mem_dest_tj_Done _ _ _ _ _ _ H) as (? & ? & [= <-] & [= <-] & Hv).
  destruct (no_buffer s lb ls) eqn:Hnb.
  - destruct a; [|now rewrite jpeg_mem_dest_tj_refused in H by auto].
    destruct ok; [|now rewrite jpeg_mem_dest_tj_out_of_memory in H by auto].
    rewrite jpeg_mem_dest_tj_allocated in H by auto. injection H as <-.
    unfold pointers_live, prepared.
    cbn [cinfo_dest heap buffer newbuffer live].
    now rewrite lookup_insert_eq.
  - destruct (no_buffer_false _ _ _ Hv Hnb) as (p' & n & Hp' & Hn & Hnull & Hnz).
    rewrite Hp in Hp'. injection Hp' as <-.
    rewrite (jpeg_mem_dest_tj_supplied _ _ _ _ _ _ _ Hp Hn Hnull Hnz) in H.
    injection H as <-.
    unfold pointers_live, prepared, entry_dest. rewrite Hnone.
    destruct s as [h pv uv cd]. simpl in *. now rewrite Hbuf.
Qed.

End ConstructionFacts.

(** ** The claims about construction and finish *)

(** C5. A sink made by [jpeg_mem_dest_tj] with [alloc] false refuses
    every call of [empty_mem_output_buffer], whatever the size of its
    buffer and whatever the session did before: the call exits with
    [JERR_BUFFER_SIZE] and the state at the exit is the state at the
    call. *)
Theorem growth_refused_without_permission (w : Z)
    (pool_obj : my_mem_destination_mgr) (ok0 ok : bool) (ob os : option loc)
    (acts : list action) (s0 s1 s : state) :
  jpeg_mem_dest_tj w pool_obj ok0 ob os false s0 = Done tt s1 ->
  run w acts s1 = Done tt s ->
  empty_mem_output_buffer w ok s = ErrorExit JERR_BUFFER_SIZE None s.
Proof.
  intros (d1 & Hd1 & Ha1)%jpeg_mem_dest_tj_alloc_flag Hrun.
  destruct (run_alloc w acts _ _ _ Hd1 Hrun) as (d & Hd & Ha).
  unfold empty_mem_output_buffer, bind, get_dest.
  rewrite Hd, Ha, Ha1. reflexivity.
Qed.

(** C7. With slots that are valid where given, [jpeg_mem_dest_tj] exits
    with [JERR_BUFFER_SIZE] exactly when [outbuffer] or [outsize] is
    null, or no buffer is supplied and [alloc] is false.  At such an exit
    the heap and the caller's variables are as they were and the buffer
    window of the destination (buffer, capacity, write pointer, room)
    was never assigned: with a null slot the state is untouched, in the
    other case only the method table, the slots and [alloc] are stored. *)
Theorem construction_configuration_error (w : Z)
    (pool_obj : my_mem_destination_mgr) (ok : bool) (ob os : option loc)
    (a : bool) (s : state) :
  valid_slots s ob os = true ->
  ((exists p s',
       jpeg_mem_dest_tj w pool_obj ok ob os a s = ErrorExit JERR_BUFFER_SIZE p s')
   <-> configuration_error s ob os a = true) /\
  (forall p s',
      jpeg_mem_dest_tj w pool_obj ok ob os a s = ErrorExit JERR_BUFFER_SIZE p s' ->
      heap s' = heap s /\ ptr_vars s' = ptr_vars s /\
      ulong_vars s' = ulong_vars s /\
      ((ob = None \/ os = None) /\ s' = s \/
       cinfo_dest s' = Some (installed ob os a (entry_dest pool_obj s)) /\
       forall d', cinfo_dest s' = Some d' ->
                  window d' = window (entry_dest pool_obj s))).
Proof.
  intros Hv.
  destruct ob as [lb|]; [destruct os as [ls|]|].
  - unfold configuration_error.
    destruct (no_buffer s lb ls) eqn:Hnb; [destruct a|]; simpl.
    + destruct ok.
      * rewrite jpeg_mem_dest_tj_allocated by assumption.
        split; [split; [intros (p & s' & [=])|discriminate]|discriminate].
      * rewrite jpeg_mem_dest_tj_out_of_memory by assumption.
        split; [split; [intros (p & s' & [=])|discriminate]|discriminate].
    + rewrite jpeg_mem_dest_tj_refused by assumption. split.
      * split; [reflexivity|]. intros _. eauto.
      * intros p s' [= <- <-]. destruct s as [h pv uv cd]. simpl.
        repeat split. right. split; [reflexivity|].
        intros d' [= <-]. reflexivity.
    + destruct (no_buffer_false _ _ _ Hv Hnb) as (p & n & Hp & Hn & Hnull & Hnz).
      rewrite (jpeg_mem_dest_tj_supplied _ _ _ _ _ _ _ _ _ Hp Hn Hnull Hnz).
      split; [split; [intros (q & s' & [=])|discriminate]|discriminate].
  - rewrite jpeg_mem_dest_tj_null_slot by auto. split.
    + split; [reflexivity|]. intros _. eauto.
    + intros p s' [= <- <-]. auto 10.
  - rewrite jpeg_mem_dest_tj_null_slot by auto. split.
    + split; [reflexivity|]. intros _. eauto.
    + intros p s' [= <- <-]. auto 10.
Qed.

(** C8. Given no buffer (a null pointer or a zero size) and [alloc]
    true, [jpeg_mem_dest_tj] allocates [OUTPUT_BUF_SIZE] = 4096 bytes: if
    [malloc] succeeds the call returns, the new block of 4096 cells is
    the buffer and is published in the caller's pointer, the caller's
    size is 4096, the capacity is 4096 and the cursor 0; if [malloc]
    fails the call exits with [JERR_OUT_OF_MEMORY]. *)
Theorem construction_allocates_default (w : Z)
    (pool_obj : my_mem_destination_mgr) (ok : bool) (lb ls : loc) (s : state) :
  12 < w ->
  valid_slots s (Some lb) (Some ls) = true ->
  no_buffer s lb ls = true ->
  if ok then
    exists s' d' nb,
      jpeg_mem_dest_tj w pool_obj ok (Some lb) (Some ls) true s = Done tt s' /\
      cinfo_dest s' = Some d' /\
      heap s !! nb = None /\
      heap s' = <[nb := replicate (Z.to_nat 4096) Vundef]> (heap s) /\
      ptr_vars s' !! lb = Some (Ptr nb 0) /\
      ulong_vars s' !! ls = Some 4096 /\
      buffer d' = Ptr nb 0 /\ newbuffer d' = Ptr nb 0 /\
      bufsize d' = 4096 /\
      next_output_byte (pub d') = buffer d' /\
      free_in_buffer (pub d') = 4096 /\
      cursor w d' = 0
  else
    exists s',
      jpeg_mem_dest_tj w pool_obj ok (Some lb) (Some ls) true s =
        ErrorExit JERR_OUT_OF_MEMORY (Some 10) s'.
Proof.
  intros Hw Hv Hnb.
  assert (Hfit : 4096 mod 2 ^ w = 4096).
  { apply Z.mod_small. split; [lia|].
    apply Z.lt_le_trans with (2 ^ 13); [reflexivity|].
    apply Z.pow_le_mono_r; lia. }
  destruct ok.
  - rewrite jpeg_mem_dest_tj_allocated by assumption.
    eexists _, (prepared w (Some lb) (Some ls) true (Ptr (fresh (dom (heap s))) 0)
                  (Ptr (fresh (dom (heap s))) 0) (to_ulong w OUTPUT_BUF_SIZE)),
      (fresh (dom (heap s))).
    split; [reflexivity|].
    unfold cursor, prepared, to_ulong, to_size_t, OUTPUT_BUF_SIZE.
    cbn [cinfo_dest heap ptr_vars ulong_vars buffer newbuffer bufsize pub
         next_output_byte free_in_buffer].
    rewrite !Hfit, !lookup_insert_eq, Z.sub_diag, Z.mod_0_l
      by (pose proof (Z.pow_pos_nonneg 2 w); lia).
    repeat split. apply fresh_block_not_live.
  - rewrite jpeg_mem_dest_tj_out_of_memory by assumption. eauto.
Qed.

(** C3. [term_mem_destination] stores into the caller's size the cursor,
    [bufsize - free_in_buffer], and not the capacity: whenever the
    capacity exceeds the cursor the stored value differs from it, and
    when [free_in_buffer] is within the capacity the stored value is the
    plain difference. *)
Theorem finish_publishes_cursor (w : Z) (s : state)
    (d : my_mem_destination_mgr) (ls : loc) :
  cinfo_dest s = Some d ->
  outsize d = Some ls ->
  term_ready s d = true ->
  exists s',
    term_mem_destination w s = Done tt s' /\
    ulong_vars s' !! ls = Some (cursor w d) /\
    (cursor w d < bufsize d -> ulong_vars s' !! ls <> Some (bufsize d)) /\
    (0 <= free_in_buffer (pub d) <= bufsize d -> bufsize d < 2 ^ w ->
     ulong_vars s' !! ls = Some (bufsize d - free_in_buffer (pub d))).
Proof.
  intros Hd Hls [[Hv Hob]%andb_true_iff _]%andb_true_iff.
  unfold valid_slots in Hv. rewrite Hls in Hv.
  apply andb_true_iff in Hv as [Hvb Hvs].
  assert (Hstored : to_ulong w (cursor w d) = cursor w d)
    by apply to_ulong_to_size_t.
  assert (Hplain : 0 <= free_in_buffer (pub d) <= bufsize d -> bufsize d < 2 ^ w ->
                   cursor w d = bufsize d - free_in_buffer (pub d)).
  { intros Hf Hb. unfold cursor, to_size_t. apply Z.mod_small. lia. }
  assert (Hfirst : exists s1,
             (if alloc d then store_ptr_var (outbuffer d) (buffer d) else ret tt) s
             = Done tt s1 /\ ulong_vars s1 = ulong_vars s).
  { destruct (alloc d); [|eexists; split; reflexivity].
    destruct (outbuffer d) as [lb|]; [|discriminate].
    unfold store_ptr_var. destruct (ptr_vars s !! lb); [|discriminate].
    eexists; split; reflexivity. }
  destruct Hfirst as (s1 & Hs1 & Hu1).
  destruct (ulong_vars s !! ls) as [old|] eqn:Hold; [|discriminate].
  exists (set_ulong_vars (<[ls := cursor w d]> (ulong_vars s1)) s1).
  split.
  - unfold term_mem_destination, bind, get_dest. rewrite Hd, Hs1.
    unfold store_ulong_var. rewrite Hls, Hu1, Hold.
    fold (cursor w d). now rewrite Hstored.
  - simpl. rewrite lookup_insert_eq.
    split; [reflexivity|]. split.
    + intros Hlt [= E]. lia.
    + intros Hf Hb. now rewrite Hplain.
Qed.

(** C10, as the code has it. When [jpeg_mem_dest_tj] is called again on a
    [cinfo] whose destination object exists and the caller supplies a
    buffer, every field is set from the new arguments except
    [newbuffer], which keeps the value of the earlier session;
    consequently the first call of [empty_mem_output_buffer] that
    returns in the new session has freed the block that this value
    points to, when it is not null.  When no buffer is supplied and
    [alloc] is true, [newbuffer] is overwritten: with the buffer that the
    call allocates, or with null when [malloc] fails.  (When no buffer is
    supplied and [alloc] is false the call exits and [newbuffer] is
    kept.) *)
Theorem reconstruction_newbuffer (w : Z) (pool_obj : my_mem_destination_mgr)
    (ok : bool) (lb ls : loc) (a : bool) (s : state)
    (d0 : my_mem_destination_mgr) (p : pointer) (n : Z) :
  cinfo_dest s = Some d0 ->
  ptr_vars s !! lb = Some p ->
  ulong_vars s !! ls = Some n ->
  if no_buffer s lb ls then
    if a then
      if ok then
        exists s1 d1,
          jpeg_mem_dest_tj w pool_obj ok (Some lb) (Some ls) a s = Done tt s1 /\
          cinfo_dest s1 = Some d1 /\
          newbuffer d1 = Ptr (fresh (dom (heap s))) 0 /\
          newbuffer d1 = buffer d1 /\
          live (heap s) (newbuffer d1) = false
      else
        exists s1 d1,
          jpeg_mem_dest_tj w pool_obj ok (Some lb) (Some ls) a s =
            ErrorExit JERR_OUT_OF_MEMORY (Some 10) s1 /\
          cinfo_dest s1 = Some d1 /\ newbuffer d1 = NULL
    else
      exists s1 d1,
        jpeg_mem_dest_tj w pool_obj ok (Some lb) (Some ls) a s =
          ErrorExit JERR_BUFFER_SIZE None s1 /\
        cinfo_dest s1 = Some d1 /\ newbuffer d1 = newbuffer d0
  else
    let s1 := set_cinfo_dest
                (Some (prepared w (Some lb) (Some ls) a (newbuffer d0) p n)) s in
    jpeg_mem_dest_tj w pool_obj ok (Some lb) (Some ls) a s = Done tt s1 /\
    forall (acts : list action) (ok' : bool) (s2 s3 : state),
      growths acts = O ->
      run w acts s1 = Done tt s2 ->
      empty_mem_output_buffer w ok' s2 = Done true s3 ->
      is_null (newbuffer d0) = false ->
      live (heap s3) (newbuffer d0) = false.
Proof.
  intros Hd0 Hp Hn.
  assert (Hv : valid_slots s (Some lb) (Some ls) = true)
    by (unfold valid_slots; now rewrite Hp, Hn).
  destruct (no_buffer s lb ls) eqn:Hnb; [destruct a; [destruct ok|]|].
  - rewrite jpeg_mem_dest_tj_allocated by assumption.
    eexists _, _. split; [reflexivity|]. split; [reflexivity|].
    unfold prepared. cbn [newbuffer buffer].
    split; [reflexivity|]. split; [reflexivity|].
    unfold live. now rewrite fresh_block_not_live.
  - rewrite jpeg_mem_dest_tj_out_of_memory by assumption.
    eexists _, _. split; [reflexivity|]. split; reflexivity.
  - rewrite jpeg_mem_dest_tj_refused by assumption.
    eexists _, _. split; [reflexivity|]. split; [reflexivity|].
    unfold entry_dest. now rewrite Hd0.
  - destruct (no_buffer_false _ _ _ Hv Hnb) as (p' & n' & Hp' & Hn' & Hnull & Hnz).
    rewrite Hp in Hp'. injection Hp' as <-.
    rewrite Hn in Hn'. injection Hn' as <-.
    rewrite (jpeg_mem_dest_tj_supplied _ _ _ _ _ _ _ _ _ Hp Hn Hnull Hnz).
    unfold entry_dest. rewrite Hd0. split; [reflexivity|].
    intros acts ok' s2 s3 Hg Hrun Hgrow Hnn.
    assert (Hd1 : cinfo_dest
                    (set_cinfo_dest
                       (Some (prepared w (Some lb) (Some ls) a (newbuffer d0) p n)) s)
                  = Some (prepared w (Some lb) (Some ls) a (newbuffer d0) p n))
      by reflexivity.
    destruct (run_writes_newbuffer w acts _ _ _ Hg Hd1 Hrun)
      as (d2 & Hd2 & Hnew).
    simpl in Hnew.
    apply empty_mem_output_buffer_Done in Hgrow
      as (d2' & vs & h2 & Hd2' & _ & _ & _ & _ & _ & Hfree & _).
    rewrite Hd2 in Hd2'. injection Hd2' as <-. rewrite Hnew in Hfree.
    destruct Hfree as [[E _]|(b & E & _ & ->)]; rewrite E in *; [discriminate|].
    simpl. now rewrite lookup_delete_eq.
Qed.

(** ** The claims on concrete sessions *)

Module Checks.

Import Scenario.

Ltac by_evaluation := vm_compute; reflexivity.

(** Scenario A of the specification: no buffer, growth allowed. *)
Example scenario_A_construct :
  window (dest_of sink_allocated) = (Ptr 1 0, 4096, Ptr 1 0, 4096).
Proof. by_evaluation. Qed.

Example scenario_A_growth :
  window (dest_of sink_allocated_grown) = (Ptr 2 0, 8192, Ptr 2 4096, 4096) /\
  ulong_vars (state_of (term_mem_destination 32 sink_allocated_grown)) !! 1%positive
    = Some 4096.
Proof. split; by_evaluation. Qed.

(** Scenario C: no buffer and no permission to allocate. *)
Example scenario_C :
  exists s', jpeg_mem_dest_tj 32 pool_junk true slot slot false caller_without_buffer
             = ErrorExit JERR_BUFFER_SIZE None s'.
Proof. eexists. vm_compute. reflexivity. Qed.

(** C1 as stated fails on the sink that allocated its own buffer: the
    call returns, the buffer it replaces was live before the call and is
    freed by it, and [newbuffer] then holds the new buffer, not the
    replaced one. *)
Lemma replaced_buffer_freed_within_call :
  cinfo_dest sink_allocated = Some (dest_of sink_allocated) /\
  empty_mem_output_buffer 32 true sink_allocated = Done true sink_allocated_grown /\
  live (heap sink_allocated) (buffer (dest_of sink_allocated)) = true /\
  live (heap sink_allocated_grown) (buffer (dest_of sink_allocated)) = false /\
  newbuffer (dest_of sink_allocated_grown) <> buffer (dest_of sink_allocated).
Proof.
  split; [by_evaluation|]. split; [by_evaluation|]. split; [by_evaluation|].
  split; [by_evaluation|]. vm_compute. discriminate.
Qed.

Lemma growth_frees_recorded_block_witness :
  exists d', cinfo_dest sink_borrowed_grown = Some d' /\
    newbuffer d' = buffer d' /\
    live (heap sink_borrowed_full) (buffer d') = false /\
    live (heap sink_borrowed_grown) (buffer d') = true /\
    live (heap sink_borrowed_grown) (buffer (dest_of sink_borrowed_full)) =
      negb (same_block (newbuffer (dest_of sink_borrowed_full))
              (buffer (dest_of sink_borrowed_full))) /\
    (is_null (newbuffer (dest_of sink_borrowed_full)) = false ->
     live (heap sink_borrowed_grown) (newbuffer (dest_of sink_borrowed_full)) = false) /\
    (forall p, live (heap sink_borrowed_full) p = true ->
               same_block (newbuffer (dest_of sink_borrowed_full)) p = false ->
               live (heap sink_borrowed_grown) p = true).
Proof.
  apply (growth_frees_recorded_block 32 true sink_borrowed_full sink_borrowed_grown
           (dest_of sink_borrowed_full)); by_evaluation.
Defined.


Lemma finish_publishes_cursor_witness :
  exists s',
    term_mem_destination 32 sink_fixed_three = Done tt s' /\
    ulong_vars s' !! 1%positive = Some (cursor 32 (dest_of sink_fixed_three)) /\
    (cursor 32 (dest_of sink_fixed_three) < bufsize (dest_of sink_fixed_three) ->
     ulong_vars s' !! 1%positive <> Some (bufsize (dest_of sink_fixed_three))) /\
    (0 <= free_in_buffer (pub (dest_of sink_fixed_three))
       <= bufsize (dest_of sink_fixed_three) ->
     bufsize (dest_of sink_fixed_three) < 2 ^ 32 ->
     ulong_vars s' !! 1%positive =
       Some (bufsize (dest_of sink_fixed_three)
             - free_in_buffer (pub (dest_of sink_fixed_three)))).
Proof.
  apply (finish_publishes_cursor 32 sink_fixed_three (dest_of sink_fixed_three)
           1%positive); by_evaluation.
Defined.

Lemma capacity_doubles_per_growth_witness :
  exists d', cinfo_dest sink_borrowed_twice = Some d' /\
             bufsize d' = bufsize (dest_of sink_borrowed) * 2 ^ Z.of_nat (growths two_growths).
Proof.
  apply (capacity_doubles_per_growth 32 two_growths sink_borrowed
           sink_borrowed_twice (dest_of sink_borrowed)); by_evaluation.
Defined.

Lemma growth_refused_without_permission_witness :
  empty_mem_output_buffer 32 true sink_fixed_full
  = ErrorExit JERR_BUFFER_SIZE None sink_fixed_full.
Proof.
  apply (growth_refused_without_permission 32 pool_junk true true slot slot
           four_bytes caller_with_buffer sink_fixed sink_fixed_full);
    by_evaluation.
Defined.

Lemma growth_window_witness :
  exists d', cinfo_dest sink_borrowed_grown = Some d' /\
    bufsize d' = bufsize (dest_of sink_borrowed_full) * 2 /\
    next_output_byte (pub d') =
      ptr_add (buffer d') (bufsize (dest_of sink_borrowed_full)) /\
    cursor 32 d' = bufsize (dest_of sink_borrowed_full) /\
    free_in_buffer (pub d') = bufsize d' - cursor 32 d' /\
    bufsize (dest_of sink_borrowed_full) <= free_in_buffer (pub d').
Proof.
  apply (growth_window 32 true sink_borrowed_full sink_borrowed_grown
           (dest_of sink_borrowed_full)); by_evaluation.
Defined.

Lemma construction_configuration_error_witness :
  ((exists p s',
       jpeg_mem_dest_tj 32 pool_junk true slot slot false caller_without_buffer
       = ErrorExit JERR_BUFFER_SIZE p s')
   <-> configuration_error caller_without_buffer slot slot false = true) /\
  (forall p s',
      jpeg_mem_dest_tj 32 pool_junk true slot slot false caller_without_buffer
      = ErrorExit JERR_BUFFER_SIZE p s' ->
      heap s' = heap caller_without_buffer /\
      ptr_vars s' = ptr_vars caller_without_buffer /\
      ulong_vars s' = ulong_vars caller_without_buffer /\
      ((slot = None \/ slot = None) /\ s' = caller_without_buffer \/
       cinfo_dest s' =
         Some (installed slot slot false (entry_dest pool_junk caller_without_buffer)) /\
       forall d', cinfo_dest s' = Some d' ->
                  window d' = window (entry_dest pool_junk caller_without_buffer))).
Proof.
  apply (construction_configuration_error 32 pool_junk true slot slot false
           caller_without_buffer); by_evaluation.
Defined.

Lemma construction_allocates_default_witness :
  exists s' d' nb,
    jpeg_mem_dest_tj 32 pool_junk true slot slot true caller_without_buffer
      = Done tt s' /\
    cinfo_dest s' = Some d' /\
    heap caller_without_buffer !! nb = None /\
    heap s' = <[nb := replicate (Z.to_nat 4096) Vundef]> (heap caller_without_buffer) /\
    ptr_vars s' !! 1%positive = Some (Ptr nb 0) /\
    ulong_vars s' !! 1%positive = Some 4096 /\
    buffer d' = Ptr nb 0 /\ newbuffer d' = Ptr nb 0 /\
    bufsize d' = 4096 /\
    next_output_byte (pub d') = buffer d' /\
    free_in_buffer (pub d') = 4096 /\
    cursor 32 d' = 0.
Proof.
  apply (construction_allocates_default 32 pool_junk true 1%positive 1%positive
           caller_without_buffer); [lia | by_evaluation | by_evaluation].
Defined.

Lemma growth_out_of_memory_witness :
  empty_mem_output_buffer 32 false sink_borrowed_full
  = ErrorExit JERR_OUT_OF_MEMORY (Some 10) sink_borrowed_full.
Proof.
  apply (growth_out_of_memory 32 sink_borrowed_full (dest_of sink_borrowed_full));
    by_evaluation.
Defined.

(** C10 as stated fails when the second session is given no buffer:
    [newbuffer] does not keep the allocation of the first session
    (block 1) but is set to the new one, and the first growth frees that
    new block while block 1 stays allocated. *)
Lemma reconstruction_overwrites_newbuffer :
  cinfo_dest second_caller_without_buffer = Some (dest_of second_caller_without_buffer) /\
  jpeg_mem_dest_tj 32 pool_junk true slot slot true second_caller_without_buffer
    = Done tt second_sink_allocated /\
  newbuffer (dest_of second_caller_without_buffer) = Ptr 1 0 /\
  newbuffer (dest_of second_sink_allocated) = Ptr 2 0 /\
  empty_mem_output_buffer 32 true second_sink_allocated
    = Done true second_sink_allocated_grown /\
  live (heap second_sink_allocated_grown) (Ptr 1 0) = true /\
  live (heap second_sink_allocated_grown) (Ptr 2 0) = false.
Proof.
  split; [by_evaluation|]. split; [by_evaluation|]. split; [by_evaluation|].
  split; [by_evaluation|]. split; [by_evaluation|]. split; by_evaluation.
Qed.

Lemma reconstruction_newbuffer_witness :
  newbuffer (dest_of second_caller_with_buffer) = Ptr 1 0 /\
  jpeg_mem_dest_tj 32 pool_junk true slot slot true second_caller_with_buffer
    = Done tt second_sink_borrowed /\
  newbuffer (dest_of second_sink_borrowed) = Ptr 1 0 /\
  live (heap second_sink_borrowed_full)
    (newbuffer (dest_of second_caller_with_buffer)) = true /\
  live (heap second_sink_borrowed_grown)
    (newbuffer (dest_of second_caller_with_buffer)) = false.
Proof.
  assert (Hsupplied : no_buffer second_caller_with_buffer 1 1 = false)
    by by_evaluation.
  pose proof (reconstruction_newbuffer 32 pool_junk true 1%positive 1%positive true
                second_caller_with_buffer (dest_of second_caller_with_buffer)
                (Ptr 2 0) 4 ltac:(by_evaluation) ltac:(by_evaluation)
                ltac:(by_evaluation)) as Hkept.
  rewrite Hsupplied in Hkept. destruct Hkept as [_ Hfree].
  split; [by_evaluation|]. split; [by_evaluation|]. split; [by_evaluation|].
  split; [by_evaluation|].
  apply (Hfree four_bytes true second_sink_borrowed_full second_sink_borrowed_grown);
    by_evaluation.
Defined.

End Checks.

(** * Further properties of the destination manager *)

Section FinishFacts.

Variable w : Z.

(** Every step of a call of [term_mem_destination] that returns. *)
Lemma term_mem_destination_Done (s s' : state) (d : my_mem_destination_mgr) :
  cinfo_dest s = Some d ->
  term_mem_destination w s = Done tt s' ->
  exists ls old,
    outsize d = Some ls /\ ulong_vars s !! ls = Some old /\
    heap s' = heap s /\ cinfo_dest s' = Some d /\
    ulong_vars s' = <[ls := cursor w d]> (ulong_vars s) /\
    (if alloc d
     then exists lb oldp, outbuffer d = Some lb /\ ptr_vars s !! lb = Some oldp /\
                          ptr_vars s' = <[lb := buffer d]> (ptr_vars s)
     else ptr_vars s' = ptr_vars s).
Proof.
  intros Hd. unfold term_mem_destination, bind, get_dest. rewrite Hd.
  rewrite to_ulong_to_size_t. fold (cursor w d).
  destruct s as [h pv uv cd]. simpl in Hd. subst cd.
  destruct (alloc d).
  - unfold store_ptr_var, store_ulong_var. simpl.
    destruct (outbuffer d) as [lb|]; [|discriminate].
    destruct (pv !! lb) as [oldp|] eqn:Hlb; [|discriminate]. simpl.
    destruct (outsize d) as [ls|]; [|discriminate].
    destruct (uv !! ls) as [old|] eqn:Hls; [|discriminate].
    intros [= <-]. exists ls, old. simpl. repeat split; eauto.
  - unfold store_ulong_var, ret. simpl.
    destruct (outsize d) as [ls|]; [|discriminate].
    destruct (uv !! ls) as [old|] eqn:Hls; [|discriminate].
    intros [= <-]. exists ls, old. simpl. repeat split; eauto.
Qed.

End FinishFacts.

(** X1. A returning [term_mem_destination] changes neither the heap nor
    the destination object.  With [alloc] true it stores the current
    buffer into the caller's pointer; with [alloc] false it does not
    write the caller's pointer at all. *)
Theorem finish_publishes_buffer (w : Z) (s s' : state)
    (d : my_mem_destination_mgr) :
  cinfo_dest s = Some d ->
  term_mem_destination w s = Done tt s' ->
  heap s' = heap s /\ cinfo_dest s' = cinfo_dest s /\
  if alloc d
  then exists lb, outbuffer d = Some lb /\
                  ptr_vars s' = <[lb := buffer d]> (ptr_vars s)
  else ptr_vars s' = ptr_vars s.
Proof.
  intros Hd Hterm.
  destruct (term_mem_destination_Done w _ _ _ Hd Hterm)
    as (ls & old & _ & _ & Hh & Hd' & _ & Hp).
  split; [assumption|]. split; [congruence|].
  destruct (alloc d); [|assumption].
  destruct Hp as (lb & oldp & Hlb & _ & Hp). eauto.
Qed.

(** X2. [term_mem_destination] is idempotent: a second call right after
    a call that returned returns as well and leaves the state as the
    first call left it. *)
Theorem finish_twice (w : Z) (s s' : state) :
  term_mem_destination w s = Done tt s' ->
  term_mem_destination w s' = Done tt s'.
Proof.
  intros Hterm.
  destruct (cinfo_dest s) as [d|] eqn:Hd;
    [|unfold term_mem_destination, bind, get_dest in Hterm;
      rewrite Hd in Hterm; discriminate].
  destruct (term_mem_destination_Done w _ _ _ Hd Hterm)
    as (ls & old & Hls & _ & Hh & Hd' & Hu & Hp).
  unfold term_mem_destination, bind, get_dest. rewrite Hd'.
  rewrite to_ulong_to_size_t. fold (cursor w d).
  destruct s' as [h' pv' uv' cd']. simpl in *. subst.
  unfold store_ptr_var, store_ulong_var, ret. rewrite Hls.
  destruct (alloc d).
  - destruct Hp as (lb & oldp & Hlb & _ & Hp). subst pv'. rewrite Hlb. simpl.
    rewrite !lookup_insert_eq. simpl. rewrite !lookup_insert_eq.
    now rewrite !insert_insert_eq.
  - subst pv'. simpl. rewrite lookup_insert_eq.
    now rewrite insert_insert_eq.
Qed.

(** X3. [empty_mem_output_buffer] never writes the caller's variables.
    So when the caller's pointer still holds the library's buffer (the
    block that [newbuffer] points to), a call that returns leaves that
    pointer pointing into a freed block; it is only set again by
    [term_mem_destination]. *)
Theorem growth_leaves_caller_pointer_stale (w : Z) (ok : bool) (s s' : state)
    (d : my_mem_destination_mgr) (lb : loc) (p : pointer) :
  cinfo_dest s = Some d ->
  ptr_vars s !! lb = Some p ->
  same_block (newbuffer d) p = true ->
  empty_mem_output_buffer w ok s = Done true s' ->
  ptr_vars s' = ptr_vars s /\ ulong_vars s' = ulong_vars s /\
  ptr_vars s' !! lb = Some p /\ live (heap s') p = false.
Proof.
  intros Hd Hp Hsame
    (d0 & vs & h2 & Hd0 & _ & _ & _ & _ & _ & Hfree & Hpv & Huv & _)
    %empty_mem_output_buffer_Done.
  rewrite Hd in Hd0. injection Hd0 as <-.
  split; [assumption|]. split; [assumption|]. split; [congruence|].
  destruct Hfree as [[E _]|(b & E & _ & ->)]; rewrite E in Hsame;
    [discriminate|].
  destruct p as [|c o]; [discriminate|]. simpl in Hsame.
  case_bool_decide; [subst c|discriminate].
  simpl. now rewrite lookup_delete_eq.
Qed.

(** X4. The doubling has no overflow check.  When twice the capacity
    does not fit [size_t] and [malloc] succeeds, the new block is
    smaller than the old capacity and the copy overruns it: the call has
    undefined behaviour. *)
Theorem growth_overflow_undefined (w : Z) (s : state)
    (d : my_mem_destination_mgr) :
  cinfo_dest s = Some d ->
  alloc d = true ->
  0 < bufsize d < 2 ^ w ->
  2 ^ w <= bufsize d * 2 ->
  empty_mem_output_buffer w true s = Undefined.
Proof.
  intros Hd Ha Hrange Hover.
  unfold empty_mem_output_buffer, bind, get_dest.
  destruct s as [h pv uv cd]. simpl in Hd. subst cd. simpl. rewrite Ha. simpl.
  unfold MEMCOPY. simpl.
  destruct (load_bytes _ (buffer d) (bufsize d)) as [vs|] eqn:Hload;
    [|reflexivity].
  destruct (load_bytes_length _ _ _ _ Hload) as [_ Hlen].
  assert (Hsmall : to_size_t w (bufsize d * 2) = bufsize d * 2 - 2 ^ w).
  { unfold to_size_t. symmetry. apply Z.mod_unique_pos with (q := 1); lia. }
  unfold store_bytes. rewrite lookup_insert_eq, length_replicate, Hsmall.
  match goal with
  | |- context [if ?c then Some ?x else None] =>
      assert (Hc : c = false)
        by (apply andb_false_iff; right; apply Z.leb_gt; lia);
      rewrite Hc
  end.
  reflexivity.
Qed.

(** X5. A stale [newbuffer], one whose block is no longer allocated
    (the caller released the buffer of an earlier session), makes the
    growth step unsafe: the call never returns with a valid buffer.
    Either it does not return, or [malloc] reused the stale block and
    the call freed the very buffer it has just installed. *)
Theorem growth_with_stale_newbuffer (w : Z) (ok : bool) (s s' : state)
    (d : my_mem_destination_mgr) (r : bool) :
  cinfo_dest s = Some d ->
  is_null (newbuffer d) = false ->
  live (heap s) (newbuffer d) = false ->
  empty_mem_output_buffer w ok s = Done r s' ->
  exists d', cinfo_dest s' = Some d' /\
             newbuffer d = buffer d' /\
             live (heap s') (buffer d') = false.
Proof.
  intros Hd Hnn Hstale
    (d0 & vs & h2 & Hd0 & _ & _ & _ & _ & Hstore & Hfree & _ & _ & Hd')
    %empty_mem_output_buffer_Done.
  rewrite Hd in Hd0. injection Hd0 as <-.
  exists (grown w (fresh (dom (heap s))) d). split; [assumption|].
  destruct Hfree as [[E _]|(b & E & Hb & ->)]; rewrite E in *; [discriminate|].
  assert (Hlive2 : live h2 (Ptr b 0) = true)
    by (simpl; destruct Hb as [x ->]; reflexivity).
  rewrite (store_bytes_live _ _ _ _ _ Hstore) in Hlive2. simpl in Hlive2, Hstale.
  destruct (decide (fresh (dom (heap s)) = b)) as [<-|Hne].
  - split; [reflexivity|]. simpl. now rewrite lookup_delete_eq.
  - rewrite lookup_insert_ne in Hlive2 by assumption. congruence.
Qed.

(** X6. The growth step returns, with twice the capacity, whenever
    growth is allowed, [malloc] succeeds, the buffer holds [bufsize]
    bytes, twice the capacity fits [size_t], and [newbuffer] is null or
    the start of a live block. *)
Theorem growth_returns (w : Z) (s : state) (d : my_mem_destination_mgr)
    (vs : list memval) :
  cinfo_dest s = Some d ->
  alloc d = true ->
  load_bytes (heap s) (buffer d) (bufsize d) = Some vs ->
  bufsize d * 2 < 2 ^ w ->
  is_null (newbuffer d) ||
    (live (heap s) (newbuffer d) && block_start (newbuffer d)) = true ->
  exists s' d',
    empty_mem_output_buffer w true s = Done true s' /\
    cinfo_dest s' = Some d' /\ bufsize d' = bufsize d * 2.
Proof.
  intros Hd Ha Hload Hfit Hnew.
  assert (Hnew' : newbuffer d = NULL \/
                  exists b, newbuffer d = Ptr b 0 /\ is_Some (heap s !! b)).
  { destruct (newbuffer d) as [|b o]; [now left|right]. simpl in Hnew.
    apply andb_true_iff in Hnew as [Hl He%Z.eqb_eq]. subst o.
    exists b. split; [reflexivity|].
    destruct (heap s !! b); [eauto|discriminate]. }
  destruct (empty_mem_output_buffer_returns w s d vs Hd Ha Hload Hfit Hnew')
    as (s' & Hgrow).
  destruct (empty_mem_output_buffer_size w _ _ _ _ _ Hd Hgrow) as (_ & Hsz & Hd').
  eexists _, _. split; [exact Hgrow|]. split; [exact Hd'|]. exact Hsz.
Qed.

(** X7. A buffer supplied by the caller (non-null pointer, non-zero
    size) is adopted as it is, whatever [malloc] would answer: nothing is
    allocated, the caller's variables are not written, the window is the
    whole buffer and the cursor is 0.  On the first construction for a
    [cinfo], [newbuffer] is null, so that the caller's buffer is not
    what a later growth frees. *)
Theorem construction_adopts_buffer (w : Z) (pool_obj : my_mem_destination_mgr)
    (ok : bool) (lb ls : loc) (a : bool) (s : state) (p : pointer) (n : Z) :
  ptr_vars s !! lb = Some p ->
  ulong_vars s !! ls = Some n ->
  is_null p = false ->
  0 < n < 2 ^ w ->
  exists s' d',
    jpeg_mem_dest_tj w pool_obj ok (Some lb) (Some ls) a s = Done tt s' /\
    cinfo_dest s' = Some d' /\
    heap s' = heap s /\ ptr_vars s' = ptr_vars s /\ ulong_vars s' = ulong_vars s /\
    window d' = (p, n, p, n) /\ cursor w d' = 0 /\ alloc d' = a /\
    (cinfo_dest s = None -> newbuffer d' = NULL).
Proof.
  intros Hp Hn Hnull Hrange.
  assert (Hnz : n <> 0) by lia.
  rewrite (jpeg_mem_dest_tj_supplied _ _ _ _ _ _ _ _ _ Hp Hn Hnull Hnz).
  assert (Hfit : to_size_t w n = n) by (apply Z.mod_small; lia).
  eexists _, _. split; [reflexivity|]. split; [reflexivity|].
  destruct s as [h pv uv cd].
  unfold window, cursor, prepared, entry_dest, to_size_t in *. simpl.
  rewrite Hfit, Z.sub_diag, Z.mod_0_l by lia.
  do 6 (split; [reflexivity|]). now intros ->.
Qed.

(** X8. A non-null pointer with size zero counts as no buffer.  With
    [alloc] true and a successful [malloc] the caller's pointer is
    overwritten with the new block of 4096 bytes, while the block it
    pointed to stays allocated with its content: the library does not
    free it. *)
Theorem construction_ignores_empty_buffer (w : Z)
    (pool_obj : my_mem_destination_mgr) (lb ls : loc) (s : state)
    (b : block) (o : Z) (cells : list memval) :
  ptr_vars s !! lb = Some (Ptr b o) ->
  ulong_vars s !! ls = Some 0 ->
  heap s !! b = Some cells ->
  exists s' nb,
    jpeg_mem_dest_tj w pool_obj true (Some lb) (Some ls) true s = Done tt s' /\
    nb <> b /\
    ptr_vars s' !! lb = Some (Ptr nb 0) /\
    heap s' !! nb = Some (replicate (Z.to_nat OUTPUT_BUF_SIZE) Vundef) /\
    heap s' !! b = Some cells.
Proof.
  intros Hp Hn Hb.
  assert (Hv : valid_slots s (Some lb) (Some ls) = true)
    by (unfold valid_slots; now rewrite Hp, Hn).
  assert (Hnb : no_buffer s lb ls = true)
    by (unfold no_buffer; now rewrite Hp, Hn).
  rewrite jpeg_mem_dest_tj_allocated by assumption.
  assert (Hne : fresh (dom (heap s)) <> b).
  { intros E. pose proof (fresh_block_not_live (heap s)) as Hf.
    rewrite E in Hf. congruence. }
  eexists _, (fresh (dom (heap s))). split; [reflexivity|].
  cbn [heap ptr_vars]. rewrite !lookup_insert_eq, lookup_insert_ne by assumption.
  auto.
Qed.

(** X9. When the initial [malloc] fails, the exit with
    [JERR_OUT_OF_MEMORY] comes after the assignment: the caller's pointer
    has been overwritten with null and [newbuffer] is null, whereas the
    caller's size and the heap are as they were. *)
Theorem construction_out_of_memory_clears_pointer (w : Z)
    (pool_obj : my_mem_destination_mgr) (lb ls : loc) (s : state) :
  valid_slots s (Some lb) (Some ls) = true ->
  no_buffer s lb ls = true ->
  exists s' d',
    jpeg_mem_dest_tj w pool_obj false (Some lb) (Some ls) true s =
      ErrorExit JERR_OUT_OF_MEMORY (Some 10) s' /\
    cinfo_dest s' = Some d' /\ newbuffer d' = NULL /\
    ptr_vars s' !! lb = Some NULL /\
    ulong_vars s' = ulong_vars s /\ heap s' = heap s.
Proof.
  intros Hv Hnb.
  rewrite jpeg_mem_dest_tj_out_of_memory by assumption.
  eexists _, _. split; [reflexivity|]. split; [reflexivity|].
  destruct s as [h pv uv cd]. simpl. rewrite lookup_insert_eq. auto.
Qed.

(** X10. A sink that [jpeg_mem_dest_tj] returns starts with a non-null
    buffer of non-zero capacity, an empty window ([free_in_buffer] is the
    capacity, [next_output_byte] the buffer, the cursor 0), and the
    caller's pointer and size hold that buffer and that capacity. *)
Theorem construction_window (w : Z) (pool_obj : my_mem_destination_mgr)
    (ok : bool) (lb ls : loc) (a : bool) (s s' : state) (n : Z) :
  12 < w ->
  ulong_vars s !! ls = Some n ->
  0 <= n < 2 ^ w ->
  jpeg_mem_dest_tj w pool_obj ok (Some lb) (Some ls) a s = Done tt s' ->
  exists d',
    cinfo_dest s' = Some d' /\
    is_null (buffer d') = false /\ 0 < bufsize d' /\
    next_output_byte (pub d') = buffer d' /\
    free_in_buffer (pub d') = bufsize d' /\
    cursor w d' = 0 /\
    ptr_vars s' !! lb = Some (buffer d') /\
    ulong_vars s' !! ls = Some (bufsize d').
Proof.
  intros Hw Hn Hrange H.
  destruct (jpeg_mem_dest_tj_Done _ _ _ _ _ _ _ _ H) as (? & ? & [= <-] & [= <-] & Hv).
  assert (Hpos : 0 < 2 ^ w) by (apply Z.pow_pos_nonneg; lia).
  assert (Hfit : 4096 mod 2 ^ w = 4096).
  { apply Z.mod_small. split; [lia|].
    apply Z.lt_le_trans with (2 ^ 13); [reflexivity|].
    apply Z.pow_le_mono_r; lia. }
  destruct (no_buffer s lb ls) eqn:Hnb.
  - destruct a; [|now rewrite jpeg_mem_dest_tj_refused in H by auto].
    destruct ok; [|now rewrite jpeg_mem_dest_tj_out_of_memory in H by auto].
    rewrite jpeg_mem_dest_tj_allocated in H by auto. injection H as <-.
    eexists. split; [reflexivity|].
    unfold cursor, prepared, to_ulong, to_size_t, OUTPUT_BUF_SIZE.
    cbn [ptr_vars ulong_vars buffer bufsize pub next_output_byte free_in_buffer
         is_null].
    rewrite !Hfit, !lookup_insert_eq, Z.sub_diag, Z.mod_0_l by lia.
    repeat split; lia.
  - destruct (no_buffer_false _ _ _ Hv Hnb) as (p & n' & Hp & Hn' & Hnull & Hnz).
    rewrite Hn in Hn'. injection Hn' as <-.
    rewrite (jpeg_mem_dest_tj_supplied _ _ _ _ _ _ _ _ _ Hp Hn Hnull Hnz) in H.
    injection H as <-.
    assert (Hsz : to_size_t w n = n) by (apply Z.mod_small; lia).
    eexists. split; [reflexivity|].
    destruct s as [h pv uv cd]. unfold cursor, prepared. simpl in *.
    rewrite Hsz, Z.sub_diag. unfold to_size_t. rewrite Z.mod_0_l by lia.
    repeat split; auto; lia.
Qed.

Section HeapAccounting.

Variable w : Z.
Variable D0 : gset positive.

Lemma empty_mem_output_buffer_accounted (ok : bool) (s s' : state) (r : bool) :
  accounted D0 s ->
  empty_mem_output_buffer w ok s = Done r s' ->
  accounted D0 s'.
Proof.
  unfold accounted.
  intros Hacc
    (d & vs & h2 & Hd & _ & _ & _ & _ & Hstore & Hfree & _ & _ & Hd')
    %empty_mem_output_buffer_Done.
  rewrite Hd in Hacc. rewrite Hd'. cbn [grown newbuffer].
  pose proof (is_fresh (dom (heap s))) as Hfresh.
  apply store_bytes_dom in Hstore. rewrite dom_insert_L in Hstore.
  destruct Hfree as [[E ->]|(b & E & _ & ->)]; rewrite E in Hacc.
  - rewrite Hstore. rewrite Hacc in *. auto.
  - destruct Hacc as [Hb Hdom]. rewrite dom_delete_L, Hstore.
    rewrite Hdom in *. split; [set_solver|set_solver].
Qed.

Lemma producer_write_accounted (v : byte) (s s' : state) :
  accounted D0 s ->
  producer_write w v s = Done tt s' ->
  accounted D0 s'.
Proof.
  unfold accounted.
  intros Hacc (d & h' & Hd & Hstore & Hh & _ & _ & ->)%producer_write_Done.
  rewrite Hd in Hacc. rewrite Hh.
  cbn [set_free_in_buffer set_next_output_byte newbuffer].
  now rewrite (store_bytes_dom _ _ _ _ Hstore).
Qed.

Lemma run_accounted (acts : list action) :
  forall s s' : state,
    accounted D0 s -> run w acts s = Done tt s' -> accounted D0 s'.
Proof.
  induction acts as [|a acts IH]; intros s s' Hacc Hrun.
  - now injection Hrun as <-.
  - apply run_cons in Hrun as (s1 & Hstep & Hrest).
    apply (IH s1 s'); [|assumption].
    destruct a as [v|ok].
    + eapply producer_write_accounted; eassumption.
    + apply perform_MoreRoom in Hstep.
      eapply empty_mem_output_buffer_accounted; eassumption.
Qed.

End HeapAccounting.

(** X11. No leak and no foreign free in a first session.  After the
    first [jpeg_mem_dest_tj] on a [cinfo] and any session of writes and
    growth calls, the allocated blocks are exactly those that were
    allocated before the construction, plus the one block that
    [newbuffer] points to when it is not null: every superseded buffer
    of the library has been freed, and no block of the caller has. *)
Theorem session_heap_accounted (w : Z) (pool_obj : my_mem_destination_mgr)
    (ok : bool) (ob os : option loc) (a : bool) (acts : list action)
    (s0 s1 s : state) :
  cinfo_dest s0 = None ->
  jpeg_mem_dest_tj w pool_obj ok ob os a s0 = Done tt s1 ->
  run w acts s1 = Done tt s ->
  accounted (dom (heap s0)) s.
Proof.
  intros Hnone Hcons Hrun.
  apply (run_accounted w (dom (heap s0)) acts s1 s); [|assumption].
  destruct (jpeg_mem_dest_tj_Done _ _ _ _ _ _ _ _ Hcons)
    as (lb & ls & -> & -> & Hv).
  unfold accounted.
  destruct (no_buffer s0 lb ls) eqn:Hnb.
  - destruct a; [|now rewrite jpeg_mem_dest_tj_refused in Hcons by auto].
    destruct ok; [|now rewrite jpeg_mem_dest_tj_out_of_memory in Hcons by auto].
    rewrite jpeg_mem_dest_tj_allocated in Hcons by auto. injection Hcons as <-.
    cbn [cinfo_dest heap prepared newbuffer].
    split; [apply is_fresh|apply dom_insert_L].
  - destruct (no_buffer_false _ _ _ Hv Hnb) as (p & n & Hp & Hn & Hnull & Hnz).
    rewrite (jpeg_mem_dest_tj_supplied _ _ _ _ _ _ _ _ _ Hp Hn Hnull Hnz) in Hcons.
    injection Hcons as <-.
    unfold entry_dest. rewrite Hnone.
    destruct s0 as [h pv uv cd]. reflexivity.
Qed.

(** X12. Memory safety of a first session.  After the first
    [jpeg_mem_dest_tj] on a [cinfo], given a caller's buffer that is
    allocated, and any session of writes and growth calls, the sink's
    pointers are not dangling: [buffer] points into an allocated block
    and [newbuffer] is null or does. *)
Theorem session_pointers_live (w : Z) (pool_obj : my_mem_destination_mgr)
    (ok : bool) (lb ls : loc) (a : bool) (acts : list action)
    (s0 s1 s : state) (p : pointer) :
  cinfo_dest s0 = None ->
  ptr_vars s0 !! lb = Some p ->
  is_null p || live (heap s0) p = true ->
  jpeg_mem_dest_tj w pool_obj ok (Some lb) (Some ls) a s0 = Done tt s1 ->
  run w acts s1 = Done tt s ->
  pointers_live s = true.
Proof.
  intros Hnone Hp Hbuf Hcons Hrun.
  apply (run_pointers_live w acts s1 s); [|assumption].
  apply (jpeg_mem_dest_tj_pointers_live w pool_obj ok lb ls a s0 s1 p);
    try assumption.
  intros Hnn. now rewrite Hnn in Hbuf.
Qed.

(** ** From the producer's bytes to the caller's buffer *)

Section RoundTrip.

Variable w : Z.

(** A byte stored inside a region shows up at its place when the region
    is read back. *)
Lemma load_bytes_store_inside (h h' : gmap positive (list memval)) (b : block)
    (o n c : Z) (cells : list memval) (x : memval) :
  load_bytes h (Ptr b o) n = Some cells ->
  0 <= c < n ->
  store_bytes h (Ptr b (o + c)) [x] = Some h' ->
  load_bytes h' (Ptr b o) n = Some (<[Z.to_nat c := x]> cells).
Proof.
  intros (b' & o' & cs & [= <- <-] & Hb & Ho & Hn & Hlen & ->)%load_bytes_Some Hc
         (cs' & Hb' & _ & _ & ->)%store_bytes_Some.
  rewrite Hb in Hb'. injection Hb' as <-.
  assert (Hi : (Z.to_nat (o + c) < length cs)%nat) by lia.
  replace (take (Z.to_nat (o + c)) cs ++ [x] ++
             drop (Z.to_nat (o + c) + length [x]) cs)
    with (<[Z.to_nat (o + c) := x]> cs)
    by (rewrite (insert_take_drop _ _ _ Hi); simpl; now rewrite Nat.add_1_r).
  unfold load_bytes. rewrite lookup_insert_eq, length_insert.
  replace ((0 <=? o) && (0 <=? n) && (o + n <=? Z.of_nat (length cs))) with true
    by (symmetry; rewrite !andb_true_iff, !Z.leb_le; lia).
  f_equal. rewrite drop_insert_ge by lia.
  rewrite take_insert_lt by lia. f_equal. lia.
Qed.

Lemma producer_write_window (v : byte) (s s1 : state) (bs : list byte) :
  window_holds w 1 s bs ->
  producer_write w v s = Done tt s1 ->
  window_holds w 0 s1 (bs ++ [v]).
Proof.
  intros (d & cells & Hd & Hlive & Hfree & Hcap & Hnext & Hload & Hbs) Hwrite.
  pose proof (producer_write_pointers_live w _ _ _ Hlive Hwrite) as Hlive1.
  apply producer_write_Done in Hwrite
    as (d0 & h' & Hd0 & Hstore & Hh & _ & _ & Hd1).
  rewrite Hd in Hd0. injection Hd0 as <-.
  destruct (load_bytes_length _ _ _ _ Hload) as [_ Hlen].
  destruct (buffer d) as [|b o] eqn:Hbuf; [discriminate|].
  rewrite Hnext in *. simpl ptr_add in *.
  set (c := bufsize d - free_in_buffer (pub d)) in *.
  assert (Hwrap : to_size_t w (free_in_buffer (pub d) - 1)
                  = free_in_buffer (pub d) - 1)
    by (unfold to_size_t; apply Z.mod_small; lia).
  eexists _, (<[Z.to_nat c := Vbyte v]> cells).
  split; [exact Hd1|]. split; [assumption|].
  cbn [set_free_in_buffer set_next_output_byte pub free_in_buffer bufsize buffer
       next_output_byte].
  rewrite Hwrap, Hbuf. simpl ptr_add.
  split; [lia|]. split; [assumption|].
  split; [f_equal; lia|].
  split.
  - rewrite Hh. eapply load_bytes_store_inside; [eassumption| |eassumption].
    subst c. lia.
  - replace (Z.to_nat (bufsize d - (free_in_buffer (pub d) - 1)))
      with (S (Z.to_nat c)) by (subst c; lia).
    rewrite (take_S_r _ _ (Vbyte v)).
    2:{ apply list_lookup_insert_eq. unfold c. lia. }
    rewrite take_insert_ge by lia. rewrite Hbs. now rewrite fmap_app.
Qed.

Lemma empty_mem_output_buffer_window (ok : bool) (s s' : state) (r : bool)
    (d : my_mem_destination_mgr) (bs : list byte) :
  window_holds w 0 s bs ->
  cinfo_dest s = Some d ->
  free_in_buffer (pub d) = 0 ->
  empty_mem_output_buffer w ok s = Done r s' ->
  window_holds w 1 s' bs.
Proof.
  intros (d0 & cells & Hd0 & Hlive & Hfree & Hcap & Hnext & Hload & Hbs)
         Hd Hfull Hgrow.
  rewrite Hd in Hd0. injection Hd0 as <-.
  pose proof (empty_mem_output_buffer_pointers_live w _ _ _ _ Hlive Hgrow)
    as Hlive'.
  destruct (empty_mem_output_buffer_size w _ _ _ _ _ Hd Hgrow)
    as (Hn & Hdouble & Hd').
  apply empty_mem_output_buffer_Done in Hgrow
    as (d0 & vs & h2 & Hd0 & _ & _ & _ & Hload1 & Hstore & Hheap & _).
  rewrite Hd in Hd0. injection Hd0 as <-.
  unfold pointers_live in Hlive. rewrite Hd in Hlive.
  apply andb_true_iff in Hlive as [Hbuf Hnew].
  pose proof (fresh_block_not_live (heap s)) as Hfresh.
  rewrite load_bytes_insert_ne in Hload1 by assumption.
  rewrite Hload in Hload1. injection Hload1 as <-.
  destruct (load_bytes_length _ _ _ _ Hload) as [_ Hlen].
  rewrite Hfull, Z.sub_0_r in Hbs.
  rewrite take_ge in Hbs by lia.
  apply store_bytes_Some in Hstore as (new & Hnewb & _ & Hroom & ->).
  rewrite lookup_insert_eq in Hnewb. injection Hnewb as <-.
  change (Z.to_nat 0) with O in Hheap. rewrite take_0 in Hheap.
  simpl app in Hheap.
  set (nb := fresh (dom (heap s))) in *.
  set (filled := cells ++ drop (0 + length cells)
                   (replicate (Z.to_nat (to_size_t w (bufsize d * 2))) Vundef))
    in *.
  assert (Hfilled : Z.of_nat (length filled) = bufsize d * 2).
  { subst filled. rewrite length_app, length_drop, length_replicate in *.
    rewrite Hdouble in *. lia. }
  assert (Hread : load_bytes (heap s') (Ptr nb 0) (bufsize d * 2) = Some filled).
  { assert (Hat : heap s' !! nb = Some filled).
    { destruct Hheap as [[_ ->]|(b & Hb & _ & ->)].
      - now rewrite lookup_insert_eq.
      - rewrite lookup_delete_ne; [now rewrite lookup_insert_eq|].
        intros ->. rewrite Hb in Hnew. simpl in Hnew. now rewrite Hfresh in Hnew. }
    unfold load_bytes. rewrite Hat.
    replace ((0 <=? 0) && (0 <=? bufsize d * 2) &&
               (0 + bufsize d * 2 <=? Z.of_nat (length filled))) with true
      by (symmetry; rewrite !andb_true_iff, !Z.leb_le; lia).
    change (Z.to_nat 0) with O. rewrite drop_0.
    now rewrite take_ge by lia. }
  exists (grown w nb d), filled.
  split; [assumption|]. split; [assumption|].
  cbn [grown pub free_in_buffer bufsize buffer next_output_byte].
  rewrite Hdouble.
  assert (Hpos : 0 < 2 ^ w) by lia.
  assert (Hlt : bufsize d * 2 < 2 ^ w).
  { rewrite <- Hdouble. unfold to_size_t. apply Z.mod_pos_bound. assumption. }
  split; [lia|]. split; [lia|].
  split; [simpl; f_equal; lia|]. split; [assumption|].
  replace (Z.to_nat (bufsize d * 2 - bufsize d)) with (length cells) by lia.
  subst filled. now rewrite take_app_length.
Qed.

Lemma load_bytes_prefix (h : gmap positive (list memval)) (p : pointer)
    (n c : Z) (cells : list memval) :
  load_bytes h p n = Some cells ->
  0 <= c <= n ->
  load_bytes h p c = Some (take (Z.to_nat c) cells).
Proof.
  intros (b & o & cs & -> & Hb & Ho & Hn & Hlen & ->)%load_bytes_Some Hc.
  unfold load_bytes. rewrite Hb.
  replace ((0 <=? o) && (0 <=? c) && (o + c <=? Z.of_nat (length cs))) with true
    by (symmetry; rewrite !andb_true_iff, !Z.leb_le; lia).
  rewrite take_take. do 2 f_equal. lia.
Qed.

Lemma load_bytes_whole_block (h : gmap positive (list memval)) (b : block)
    (cs : list memval) :
  load_bytes (<[b := cs]> h) (Ptr b 0) (Z.of_nat (length cs)) = Some cs.
Proof.
  unfold load_bytes. rewrite lookup_insert_eq.
  replace ((0 <=? 0) && (0 <=? Z.of_nat (length cs)) &&
             (0 + Z.of_nat (length cs) <=? Z.of_nat (length cs))) with true
    by (symmetry; rewrite !andb_true_iff, !Z.leb_le; lia).
  change (Z.to_nat 0) with O. rewrite drop_0, take_ge by lia. reflexivity.
Qed.

Lemma emit_byte_Done (ok : bool) (v : byte) (s s' : state) :
  emit_byte w ok v s = Done tt s' ->
  exists s1 d1,
    producer_write w v s = Done tt s1 /\ cinfo_dest s1 = Some d1 /\
    (free_in_buffer (pub d1) = 0 /\
     empty_mem_output_buffer w ok s1 = Done true s' \/
     free_in_buffer (pub d1) <> 0 /\ s' = s1).
Proof.
  unfold emit_byte, bind, get_dest. cbn [perform].
  destruct (producer_write w v s) as [[] s1| |] eqn:Hwrite; try discriminate.
  destruct (cinfo_dest s1) as [d1|] eqn:Hd1; [|discriminate].
  destruct (Z.eqb_spec (free_in_buffer (pub d1)) 0) as [Hz|Hnz].
  - intros Hgrow%perform_MoreRoom. exists s1, d1. auto.
  - intros [= <-]. exists s1, d1. auto.
Qed.

Lemma producer_write_slots (lb ls : loc) (v : byte) (s s1 : state) :
  slots_hold lb ls s ->
  producer_write w v s = Done tt s1 ->
  slots_hold lb ls s1.
Proof.
  intros (d & Hd & Hob & Hos & Hfix)
         (d0 & h' & Hd0 & _ & _ & Hpv & _ & Hd1)%producer_write_Done.
  rewrite Hd in Hd0. injection Hd0 as <-.
  eexists. split; [exact Hd1|]. rewrite Hpv. auto.
Qed.

Lemma empty_mem_output_buffer_slots (lb ls : loc) (ok : bool) (s s' : state)
    (r : bool) :
  slots_hold lb ls s ->
  empty_mem_output_buffer w ok s = Done r s' ->
  slots_hold lb ls s'.
Proof.
  intros (d & Hd & Hob & Hos & _)
         (d0 & vs & h2 & Hd0 & Ha & _ & _ & _ & _ & _ & _ & _ & Hd')
         %empty_mem_output_buffer_Done.
  rewrite Hd in Hd0. injection Hd0 as <-.
  eexists. split; [exact Hd'|]. cbn [grown outbuffer outsize alloc].
  split; [assumption|]. split; [assumption|]. congruence.
Qed.

Lemma emit_byte_window (lb ls : loc) (ok : bool) (v : byte) (s s' : state)
    (bs : list byte) :
  window_holds w 1 s bs /\ slots_hold lb ls s ->
  emit_byte w ok v s = Done tt s' ->
  window_holds w 1 s' (bs ++ [v]) /\ slots_hold lb ls s'.
Proof.
  intros [Hwin Hslots] (s1 & d1 & Hwrite & Hd1 & Hcase)%emit_byte_Done.
  pose proof (producer_write_window _ _ _ _ Hwin Hwrite) as Hwin1.
  pose proof (producer_write_slots _ _ _ _ _ Hslots Hwrite) as Hslots1.
  destruct Hcase as [[Hfull Hgrow]|[Hroom ->]].
  - split.
    + eapply empty_mem_output_buffer_window; eassumption.
    + eapply empty_mem_output_buffer_slots; eassumption.
  - split; [|assumption].
    destruct Hwin1 as (d & cells & Hd & Hrest).
    rewrite Hd1 in Hd. injection Hd as <-.
    exists d1, cells. split; [assumption|].
    destruct Hrest as (? & ? & ?). split; [assumption|]. split; [lia|assumption].
Qed.

Lemma emit_bytes_window (lb ls : loc) (ok : bool) (vs : list byte) :
  forall (s s' : state) (bs : list byte),
    window_holds w 1 s bs /\ slots_hold lb ls s ->
    emit_bytes w ok vs s = Done tt s' ->
    window_holds w 1 s' (bs ++ vs) /\ slots_hold lb ls s'.
Proof.
  induction vs as [|v vs IH]; intros s s' bs Hinv Hemit.
  - injection Hemit as <-. now rewrite app_nil_r.
  - simpl in Hemit. unfold bind in Hemit.
    destruct (emit_byte w ok v s) as [[] s1| |] eqn:Hstep; try discriminate.
    replace (bs ++ v :: vs) with ((bs ++ [v]) ++ vs) by now rewrite <- app_assoc.
    apply (IH s1 s'); [|assumption].
    eapply emit_byte_window; eassumption.
Qed.

(** What [jpeg_mem_dest_tj] establishes the first time. *)
Lemma jpeg_mem_dest_tj_window (pool_obj : my_mem_destination_mgr) (ok : bool)
    (lb ls : loc) (a : bool) (s0 s1 : state) (p : pointer) (n : Z) :
  12 < w ->
  cinfo_dest s0 = None ->
  ptr_vars s0 !! lb = Some p ->
  ulong_vars s0 !! ls = Some n ->
  0 <= n < 2 ^ w ->
  is_null p || (n =? 0) || readable (heap s0) p n = true ->
  jpeg_mem_dest_tj w pool_obj ok (Some lb) (Some ls) a s0 = Done tt s1 ->
  window_holds w 1 s1 [] /\ slots_hold lb ls s1.
Proof.
  intros Hw Hnone Hp Hn Hrange Hread Hcons.
  assert (Hv : valid_slots s0 (Some lb) (Some ls) = true)
    by (unfold valid_slots; now rewrite Hp, Hn).
  assert (Hpos : 0 < 2 ^ w) by (apply Z.pow_pos_nonneg; lia).
  destruct (no_buffer s0 lb ls) eqn:Hnb.
  - destruct a; [|now rewrite jpeg_mem_dest_tj_refused in Hcons by auto].
    destruct ok; [|now rewrite jpeg_mem_dest_tj_out_of_memory in Hcons by auto].
    rewrite jpeg_mem_dest_tj_allocated in Hcons by auto. injection Hcons as <-.
    assert (Hbig : 4096 < 2 ^ w).
    { apply Z.lt_le_trans with (2 ^ 13); [reflexivity|].
      apply Z.pow_le_mono_r; lia. }
    assert (Hfit : to_size_t w (to_ulong w OUTPUT_BUF_SIZE) = 4096).
    { unfold to_size_t, to_ulong, OUTPUT_BUF_SIZE. rewrite Zmod_mod.
      apply Z.mod_small. lia. }
    set (nb := fresh (dom (heap s0))).
    split.
    + exists (prepared w (Some lb) (Some ls) true (Ptr nb 0) (Ptr nb 0)
                (to_ulong w OUTPUT_BUF_SIZE)),
             (replicate (Z.to_nat OUTPUT_BUF_SIZE) Vundef).
      split; [reflexivity|].
      split.
      { unfold pointers_live, prepared.
        cbn [cinfo_dest heap buffer newbuffer live].
        now rewrite lookup_insert_eq. }
      unfold prepared.
      cbn [heap pub free_in_buffer bufsize buffer next_output_byte].
      rewrite Hfit, Z.sub_diag.
      split; [lia|]. split; [lia|]. split; [reflexivity|].
      split; [|reflexivity].
      replace 4096 with (Z.of_nat (length (replicate (Z.to_nat OUTPUT_BUF_SIZE) Vundef)))
        by (rewrite length_replicate; reflexivity).
      apply load_bytes_whole_block.
    + eexists. split; [reflexivity|]. cbn [prepared outbuffer outsize alloc].
      split; [reflexivity|]. split; [reflexivity|]. discriminate.
  - destruct (no_buffer_false _ _ _ Hv Hnb) as (p' & n' & Hp' & Hn' & Hnull & Hnz).
    rewrite Hp in Hp'. injection Hp' as <-.
    rewrite Hn in Hn'. injection Hn' as <-.
    rewrite (jpeg_mem_dest_tj_supplied _ _ _ _ _ _ _ _ _ Hp Hn Hnull Hnz) in Hcons.
    injection Hcons as <-.
    rewrite Hnull in Hread. apply Z.eqb_neq in Hnz. rewrite Hnz in Hread.
    simpl in Hread. unfold readable in Hread.
    destruct (load_bytes (heap s0) p n) as [cells|] eqn:Hload; [|discriminate].
    assert (Hfit : to_size_t w n = n) by (apply Z.mod_small; lia).
    apply Z.eqb_neq in Hnz.
    destruct s0 as [h pv uv cd]. simpl in *. subst cd.
    split.
    + exists (prepared w (Some lb) (Some ls) a NULL p n), cells.
      split; [reflexivity|].
      split.
      { unfold pointers_live, prepared.
        cbn [cinfo_dest set_cinfo_dest heap buffer newbuffer is_null].
        now rewrite (load_bytes_live _ _ _ _ Hload). }
      unfold prepared.
      cbn [set_cinfo_dest heap pub free_in_buffer bufsize buffer next_output_byte].
      rewrite Hfit, Z.sub_diag.
      split; [lia|]. split; [lia|].
      split; [destruct p; [discriminate|]; simpl; f_equal; lia|].
      split; [assumption|reflexivity].
    + eexists. split; [reflexivity|].
      cbn [prepared outbuffer outsize alloc buffer set_cinfo_dest ptr_vars].
      auto.
Qed.

End RoundTrip.

(** X13. Round trip of a first session.  After the first
    [jpeg_mem_dest_tj] on a [cinfo] (with a caller's buffer that holds
    the size it announces, or none), a producer that writes the bytes
    [vs] one after the other and asks for more room whenever none is
    left, and [term_mem_destination], the caller's size is the number
    of bytes written and the caller's pointer leads to exactly these
    bytes, however often the buffer was replaced. *)
Theorem session_round_trip (w : Z) (pool_obj : my_mem_destination_mgr)
    (ok0 ok : bool) (lb ls : loc) (a : bool) (vs : list byte)
    (s0 s1 s2 s3 : state) (p : pointer) (n : Z) :
  12 < w ->
  cinfo_dest s0 = None ->
  ptr_vars s0 !! lb = Some p ->
  ulong_vars s0 !! ls = Some n ->
  0 <= n < 2 ^ w ->
  is_null p || (n =? 0) || readable (heap s0) p n = true ->
  jpeg_mem_dest_tj w pool_obj ok0 (Some lb) (Some ls) a s0 = Done tt s1 ->
  emit_bytes w ok vs s1 = Done tt s2 ->
  term_mem_destination w s2 = Done tt s3 ->
  exists q,
    ptr_vars s3 !! lb = Some q /\
    ulong_vars s3 !! ls = Some (Z.of_nat (length vs)) /\
    load_bytes (heap s3) q (Z.of_nat (length vs)) = Some (Vbyte <$> vs).
Proof.
  intros Hw Hnone Hp Hn Hrange Hread Hcons Hemit Hterm.
  pose proof (jpeg_mem_dest_tj_window w pool_obj ok0 lb ls a s0 s1 p n
                Hw Hnone Hp Hn Hrange Hread Hcons) as Hinv1.
  destruct (emit_bytes_window w lb ls ok vs s1 s2 [] Hinv1 Hemit)
    as [(d & cells & Hd & _ & Hfree & Hcap & _ & Hload & Hbs)
        (d' & Hd' & Hob & Hos & Hfix)].
  rewrite Hd in Hd'. injection Hd' as <-. simpl app in Hbs.
  destruct (load_bytes_length _ _ _ _ Hload) as [_ Hlen].
  set (c := bufsize d - free_in_buffer (pub d)) in *.
  assert (Hcount : Z.of_nat (length vs) = c).
  { apply (f_equal length) in Hbs.
    rewrite length_take, length_fmap in Hbs. lia. }
  assert (Hcursor : cursor w d = c)
    by (unfold cursor, to_size_t; apply Z.mod_small; lia).
  destruct (term_mem_destination_Done w _ _ _ Hd Hterm)
    as (ls' & old & Hls' & _ & Hh & _ & Hu & Hpv).
  rewrite Hos in Hls'. injection Hls' as <-.
  exists (buffer d). split; [|split].
  - destruct (alloc d).
    + destruct Hpv as (lb' & oldp & Hlb' & _ & ->).
      rewrite Hob in Hlb'. injection Hlb' as <-. apply lookup_insert_eq.
    + rewrite Hpv. now apply Hfix.
  - rewrite Hu, lookup_insert_eq, Hcursor. now rewrite Hcount.
  - rewrite Hh, Hcount, <- Hbs.
    apply load_bytes_prefix with (n := bufsize d); [assumption|lia].
Qed.

(** X14. A sink constructed with [alloc] false never leaves the caller's
    buffer: a session that runs to its end contains no growth call, and
    after it the buffer pointer, the capacity and the set of allocated
    blocks are those of the construction. *)
Theorem fixed_sink_keeps_buffer (w : Z) (pool_obj : my_mem_destination_mgr)
    (ok : bool) (ob os : option loc) (acts : list action) (s0 s1 s : state) :
  jpeg_mem_dest_tj w pool_obj ok ob os false s0 = Done tt s1 ->
  run w acts s1 = Done tt s ->
  growths acts = O /\
  dom (heap s) = dom (heap s1) /\
  exists d1 d,
    cinfo_dest s1 = Some d1 /\ cinfo_dest s = Some d /\
    buffer d = buffer d1 /\ bufsize d = bufsize d1 /\ alloc d = false.
Proof.
  intros (d1 & Hd1 & Ha1)%jpeg_mem_dest_tj_alloc_flag.
  revert s1 d1 Hd1 Ha1.
  induction acts as [|act acts IH]; intros s1 d1 Hd1 Ha1 Hrun.
  - injection Hrun as <-. split; [reflexivity|]. split; [reflexivity|].
    exists d1, d1. auto.
  - apply run_cons in Hrun as (s2 & Hstep & Hrest).
    destruct act as [v|ok'].
    + apply producer_write_Done in Hstep
        as (d0 & h' & Hd0 & Hstore & Hh & _ & _ & Hd2).
      rewrite Hd1 in Hd0. injection Hd0 as <-.
      destruct (IH _ _ Hd2 Ha1 Hrest) as (Hg & Hdom & d1' & d & Hd1' & Hd & Hb & Hsz & Ha).
      rewrite Hd2 in Hd1'. injection Hd1' as <-.
      split; [exact Hg|].
      split; [rewrite Hdom, Hh; eapply store_bytes_dom; eassumption|].
      exists d1, d. auto.
    + apply perform_MoreRoom in Hstep.
      apply empty_mem_output_buffer_Done in Hstep
        as (d0 & _ & _ & Hd0 & Ha & _).
      rewrite Hd1 in Hd0. injection Hd0 as <-. congruence.
Qed.

(** X15. [empty_mem_output_buffer] has two error exits and both are
    clean: an exit carries [JERR_BUFFER_SIZE] exactly for a sink that
    may not grow, and [JERR_OUT_OF_MEMORY] with parameter 10 exactly when
    [malloc] failed on a sink that may; in either case the state at the
    exit is the state at the call. *)
Theorem growth_error_exits (w : Z) (ok : bool) (s s' : state)
    (d : my_mem_destination_mgr) (c : msg_code) (p : option Z) :
  cinfo_dest s = Some d ->
  empty_mem_output_buffer w ok s = ErrorExit c p s' ->
  s' = s /\
  (if alloc d
   then ok = false /\ c = JERR_OUT_OF_MEMORY /\ p = Some 10
   else c = JERR_BUFFER_SIZE /\ p = None).
Proof.
  intros Hd (-> & d0 & Hd0 & Hcase)%empty_mem_output_buffer_ErrorExit.
  rewrite Hd in Hd0. injection Hd0 as <-. split; [reflexivity|].
  destruct Hcase as [(-> & -> & ->)|(-> & -> & -> & ->)]; auto.
Qed.

(** ** The further properties on concrete sessions *)

Module MoreChecks.

Import Scenario.

Ltac by_evaluation := vm_compute; reflexivity.

Lemma finish_publishes_buffer_witness :
  heap sink_borrowed_done = heap sink_borrowed_grown /\
  cinfo_dest sink_borrowed_done = cinfo_dest sink_borrowed_grown /\
  if alloc (dest_of sink_borrowed_grown)
  then exists lb, outbuffer (dest_of sink_borrowed_grown) = Some lb /\
                  ptr_vars sink_borrowed_done =
                    <[lb := buffer (dest_of sink_borrowed_grown)]>
                      (ptr_vars sink_borrowed_grown)
  else ptr_vars sink_borrowed_done = ptr_vars sink_borrowed_grown.
Proof.
  apply (finish_publishes_buffer 32 sink_borrowed_grown sink_borrowed_done
           (dest_of sink_borrowed_grown)); by_evaluation.
Defined.

Lemma finish_twice_witness :
  term_mem_destination 32 sink_borrowed_done = Done tt sink_borrowed_done.
Proof.
  apply (finish_twice 32 sink_borrowed_grown sink_borrowed_done); by_evaluation.
Defined.

Lemma growth_leaves_caller_pointer_stale_witness :
  ptr_vars sink_allocated_grown = ptr_vars sink_allocated /\
  ulong_vars sink_allocated_grown = ulong_vars sink_allocated /\
  ptr_vars sink_allocated_grown !! 1%positive = Some (Ptr 1 0) /\
  live (heap sink_allocated_grown) (Ptr 1 0) = false.
Proof.
  apply (growth_leaves_caller_pointer_stale 32 true sink_allocated
           sink_allocated_grown (dest_of sink_allocated) 1%positive (Ptr 1 0));
    by_evaluation.
Defined.

Lemma growth_overflow_undefined_witness :
  empty_mem_output_buffer 32 true sink_huge = Undefined.
Proof.
  apply (growth_overflow_undefined 32 sink_huge (dest_of sink_huge));
    [by_evaluation | by_evaluation | split; by_evaluation
    | vm_compute; discriminate].
Defined.

Lemma growth_with_stale_newbuffer_witness :
  exists d', cinfo_dest second_sink_stale_grown = Some d' /\
             newbuffer (dest_of second_sink_stale) = buffer d' /\
             live (heap second_sink_stale_grown) (buffer d') = false.
Proof.
  apply (growth_with_stale_newbuffer 32 true second_sink_stale
           second_sink_stale_grown (dest_of second_sink_stale) true);
    by_evaluation.
Defined.

Lemma growth_returns_witness :
  exists s' d',
    empty_mem_output_buffer 32 true sink_borrowed_full = Done true s' /\
    cinfo_dest s' = Some d' /\
    bufsize d' = bufsize (dest_of sink_borrowed_full) * 2.
Proof.
  apply (growth_returns 32 sink_borrowed_full (dest_of sink_borrowed_full)
           [Vbyte x4a; Vbyte x46; Vbyte x49; Vbyte x46]); by_evaluation.
Defined.

Lemma construction_adopts_buffer_witness :
  exists s' d',
    jpeg_mem_dest_tj 32 pool_junk false slot slot true caller_with_buffer
      = Done tt s' /\
    cinfo_dest s' = Some d' /\
    heap s' = heap caller_with_buffer /\
    ptr_vars s' = ptr_vars caller_with_buffer /\
    ulong_vars s' = ulong_vars caller_with_buffer /\
    window d' = (Ptr 1 0, 4, Ptr 1 0, 4) /\ cursor 32 d' = 0 /\ alloc d' = true /\
    (cinfo_dest caller_with_buffer = None -> newbuffer d' = NULL).
Proof.
  apply (construction_adopts_buffer 32 pool_junk false 1%positive 1%positive true
           caller_with_buffer (Ptr 1 0) 4);
    [by_evaluation | by_evaluation | by_evaluation | lia].
Defined.

Lemma construction_ignores_empty_buffer_witness :
  exists s' nb,
    jpeg_mem_dest_tj 32 pool_junk true slot slot true caller_with_empty_buffer
      = Done tt s' /\
    nb <> 1%positive /\
    ptr_vars s' !! 1%positive = Some (Ptr nb 0) /\
    heap s' !! nb = Some (replicate (Z.to_nat OUTPUT_BUF_SIZE) Vundef) /\
    heap s' !! 1%positive = Some (replicate 4 Vundef).
Proof.
  apply (construction_ignores_empty_buffer 32 pool_junk 1%positive 1%positive
           caller_with_empty_buffer 1%positive 0 (replicate 4 Vundef));
    by_evaluation.
Defined.

Lemma construction_out_of_memory_clears_pointer_witness :
  exists s' d',
    jpeg_mem_dest_tj 32 pool_junk false slot slot true caller_with_empty_buffer =
      ErrorExit JERR_OUT_OF_MEMORY (Some 10) s' /\
    cinfo_dest s' = Some d' /\ newbuffer d' = NULL /\
    ptr_vars s' !! 1%positive = Some NULL /\
    ulong_vars s' = ulong_vars caller_with_empty_buffer /\
    heap s' = heap caller_with_empty_buffer.
Proof.
  apply (construction_out_of_memory_clears_pointer 32 pool_junk 1%positive
           1%positive caller_with_empty_buffer); by_evaluation.
Defined.

Lemma construction_window_witness :
  exists d',
    cinfo_dest sink_borrowed = Some d' /\
    is_null (buffer d') = false /\ 0 < bufsize d' /\
    next_output_byte (pub d') = buffer d' /\
    free_in_buffer (pub d') = bufsize d' /\
    cursor 32 d' = 0 /\
    ptr_vars sink_borrowed !! 1%positive = Some (buffer d') /\
    ulong_vars sink_borrowed !! 1%positive = Some (bufsize d').
Proof.
  apply (construction_window 32 pool_junk true 1%positive 1%positive true
           caller_with_buffer sink_borrowed 4);
    [lia | by_evaluation | lia | by_evaluation].
Defined.

Lemma session_heap_accounted_witness :
  accounted (dom (heap caller_with_buffer)) sink_borrowed_twice.
Proof.
  apply (session_heap_accounted 32 pool_junk true slot slot true two_growths
           caller_with_buffer sink_borrowed sink_borrowed_twice); by_evaluation.
Defined.

Lemma session_pointers_live_witness :
  pointers_live sink_borrowed_twice = true.
Proof.
  apply (session_pointers_live 32 pool_junk true 1%positive 1%positive true
           two_growths caller_with_buffer sink_borrowed sink_borrowed_twice
           (Ptr 1 0)); by_evaluation.
Defined.

Lemma session_round_trip_witness :
  exists q,
    ptr_vars sink_emitted_done !! 1%positive = Some q /\
    ulong_vars sink_emitted_done !! 1%positive = Some (Z.of_nat (length six_bytes)) /\
    load_bytes (heap sink_emitted_done) q (Z.of_nat (length six_bytes))
      = Some (Vbyte <$> six_bytes).
Proof.
  apply (session_round_trip 32 pool_junk true true 1%positive 1%positive true
           six_bytes caller_with_buffer sink_borrowed sink_emitted
           sink_emitted_done (Ptr 1 0) 4);
    [lia | by_evaluation | by_evaluation | by_evaluation | lia
    | by_evaluation | by_evaluation | by_evaluation | by_evaluation].
Defined.

Lemma fixed_sink_keeps_buffer_witness :
  growths four_bytes = O /\
  dom (heap sink_fixed_full) = dom (heap sink_fixed) /\
  exists d1 d,
    cinfo_dest sink_fixed = Some d1 /\ cinfo_dest sink_fixed_full = Some d /\
    buffer d = buffer d1 /\ bufsize d = bufsize d1 /\ alloc d = false.
Proof.
  apply (fixed_sink_keeps_buffer 32 pool_junk true slot slot four_bytes
           caller_with_buffer sink_fixed sink_fixed_full); by_evaluation.
Defined.

Lemma growth_error_exits_witness :
  sink_fixed_full = sink_fixed_full /\
  JERR_BUFFER_SIZE = JERR_BUFFER_SIZE /\ @None Z = None.
Proof.
  apply (growth_error_exits 32 true sink_fixed_full sink_fixed_full
           (dest_of sink_fixed_full) JERR_BUFFER_SIZE None); by_evaluation.
Defined.


End MoreChecks.
